(** * The prompt layer of the model-registry [AbstractStore]

    A shallow embedding of [mlflow/store/model_registry/abstract_store.py]:
    the prompt adaptation layer, the link-merge protocol on the
    linked-prompts tag and the poller that awaits model-version creation.

    The store's abstract methods, the tracking store, the tracing client, the
    clock and the link lock are the operations [op] of a program tree
    [prog]; a method of the class is a function that builds such a tree, and
    [run] executes a tree against any handler of the operations. *)

From Stdlib Require Import ZArith Ascii String List Bool Lia DecimalString.
From Stdlib Require DecimalPos.
From stdpp Require Import base option list gmap strings.

Local Open Scope Z_scope.

(** ** Python values and builtins *)

(** The values [json.loads] produces.  A dict keeps its items in insertion
    order; a float is kept as its [repr], no arithmetic is done on it. *)
#[warnings="-register-all"]
Inductive pyval : Type :=
| PNone
| PBool (b : bool)
| PInt (n : Z)
| PFloat (repr : string)
| PStr (s : string)
| PList (l : list pyval)
| PDict (items : list (string * pyval)).

(** [d.get(k)] on the items of a dict. *)
Fixpoint dict_get (k : string) (items : list (string * pyval)) : option pyval :=
  match items with
  | [] => None
  | (k', v) :: rest => if String.eqb k k' then Some v else dict_get k rest
  end.

(** [str(n)] for an int. *)
Definition str_of_int (n : Z) : string := NilZero.string_of_int (Z.to_int n).

Module PyInt.
(** [int(s)] for a str, base 10: surrounding white space is dropped, one
    sign is allowed, and the digits may be grouped by single underscores.
    Strings are ASCII text here. *)

Definition is_space (c : ascii) : bool :=
  let n := nat_of_ascii c in
  (Nat.leb 9 n && Nat.leb n 13) || (Nat.leb 28 n && Nat.leb n 32).

Definition digit_of (c : ascii) : option Z :=
  let n := nat_of_ascii c in
  if Nat.leb 48 n && Nat.leb n 57 then Some (Z.of_nat (n - 48)) else None.

Fixpoint lstrip (l : list ascii) : list ascii :=
  match l with
  | c :: rest => if is_space c then lstrip rest else l
  | [] => []
  end.

Definition strip (l : list ascii) : list ascii := rev (lstrip (rev (lstrip l))).

(** [after_digit] tells whether the previous character was a digit: an
    underscore is legal only between two digits. *)
Fixpoint digits (acc : Z) (after_digit : bool) (l : list ascii) : option Z :=
  match l with
  | [] => if after_digit then Some acc else None
  | c :: rest =>
      match digit_of c with
      | Some d => digits (10 * acc + d) true rest
      | None =>
          if Ascii.eqb c "_" && after_digit then digits acc false rest else None
      end
  end.

Definition of_str (s : string) : option Z :=
  match strip (list_ascii_of_string s) with
  | "+"%char :: rest => digits 0 false rest
  | "-"%char :: rest => Z.opp <$> digits 0 false rest
  | l => digits 0 false l
  end.
End PyInt.

(** A [version] argument is typed [Union[str, int]]. *)
Inductive version_arg : Type :=
| VInt (n : Z)
| VStr (s : string).

(** [int(version)]; [None] stands for the [ValueError] or [TypeError]. *)
Definition py_int (v : version_arg) : option Z :=
  match v with
  | VInt n => Some n
  | VStr s => PyInt.of_str s
  end.

(** [str(version)], also what an f-string prints for it. *)
Definition py_str (v : version_arg) : string :=
  match v with
  | VInt n => str_of_int n
  | VStr s => s
  end.

(** ** Exceptions and results *)

(** The error codes the module imports from [mlflow.protos.databricks_pb2]. *)
Inductive ErrorCode : Type :=
| INVALID_PARAMETER_VALUE
| RESOURCE_ALREADY_EXISTS
| RESOURCE_DOES_NOT_EXIST.

(** The classes of Python exception the code tells apart.  [OtherError] is
    any [Exception] that is none of the others. *)
Inductive exn_class : Type :=
| ValueError
| TypeError
| AttributeError
| OtherError.

(** [MlflowException(message, error_code)]; the code is [None] where the
    source passes none. *)
Inductive exn : Type :=
| MlflowException (message : string) (error_code : option ErrorCode)
| PyError (cls : exn_class).

Inductive result (A : Type) : Type :=
| Ok (a : A)
| Exc (e : exn).
Arguments Ok {A} a.
Arguments Exc {A} e.

Definition is_mlflow_exception (e : exn) : bool :=
  match e with MlflowException _ _ => true | PyError _ => false end.

(** [except (ValueError, TypeError)] *)
Definition is_value_or_type_error (e : exn) : bool :=
  match e with
  | PyError ValueError | PyError TypeError => true
  | _ => false
  end.

(** ** Entities *)

(** A [RegisteredModelTag], [ModelVersionTag], [RunTag] or [LoggedModelTag]. *)
Record Tag : Type := mkTag { key : string; value : string }.

(** A tag collection is a dict or a list of tag objects: the source tests
    [isinstance(..., dict)] before it reads one. *)
Inductive tags_repr : Type :=
| TagDict (d : gmap string string)
| TagList (l : list Tag).

(** [{tag.key: tag.value for tag in l}] *)
Definition dict_of_tags (l : list Tag) : gmap string string :=
  foldl (λ d tag, <[key tag := value tag]> d) ∅ l.

(** [t.copy() if isinstance(t, dict) else {tag.key: tag.value for tag in t}] *)
Definition tags_as_dict (t : tags_repr) : gmap string string :=
  match t with
  | TagDict d => d
  | TagList l => dict_of_tags l
  end.

Record RegisteredModel : Type := mkRegisteredModel {
  rm_name : string;
  rm_description : option string;
  rm_creation_timestamp : option Z;
  rm__tags : tags_repr
}.

Record ModelVersion : Type := mkModelVersion {
  mv_name : string;
  mv_version : Z;
  mv_status : string;
  mv_status_message : option string;
  mv_description : option string;
  mv_tags : gmap string string
}.

Record Prompt : Type := mkPrompt {
  p_name : string;
  p_description : option string;
  p_creation_timestamp : option Z;
  p_tags : gmap string string
}.

Record PromptVersion : Type := mkPromptVersion {
  pv_name : string;
  pv_version : Z;
  pv_template : pyval;
  pv_tags : gmap string string
}.

Record TraceInfo : Type := mkTraceInfo { ti_tags : gmap string string }.
Record LoggedModel : Type := mkLoggedModel { lm_tags : gmap string string }.
Record Run : Type := mkRun { run_data_tags : tags_repr }.

(** [template: Union[str, list[dict[str, ContentType]]]] *)
Inductive template : Type :=
| TText (s : string)
| TChat (messages : pyval).

(** [response_format: Union[BaseModel, dict[str, Any]]]; a pydantic model
    is known by its class name. *)
Inductive response_format : Type :=
| RFModel (class_name : string)
| RFDict (d : list (string * pyval)).

(** Truth value of [if response_format:]: a class is true, a dict is true
    when it has an item, [None] is false. *)
Definition rf_truthy (rf : option response_format) : bool :=
  match rf with
  | None => false
  | Some (RFModel _) => true
  | Some (RFDict d) => negb (bool_decide (d = []))
  end.

(** ** What the module imports *)

(** The constants of [mlflow.prompt.constants], the [json] module and the
    two converters of other modules are not part of this file: the
    development is parametric in them. *)
Class Runtime : Type := {
  IS_PROMPT_TAG_KEY : string;
  LINKED_PROMPTS_TAG_KEY : string;
  PROMPT_TEXT_TAG_KEY : string;
  PROMPT_TYPE_TAG_KEY : string;
  RESPONSE_FORMAT_TAG_KEY : string;
  (** [json.loads]; [None] is [json.JSONDecodeError] *)
  json_loads : string → option pyval;
  json_dumps : pyval → string;
  model_version_to_prompt_version :
    ModelVersion → gmap string string → result PromptVersion;
  convert_response_format_to_dict : response_format → pyval
}.

(** Modelled from the spec: the two kinds of template, "text" and "chat"
    ([PROMPT_TYPE_TEXT] and [PROMPT_TYPE_CHAT] of [mlflow.prompt.constants]). *)
Definition PROMPT_TYPE_TEXT : string := "text".
Definition PROMPT_TYPE_CHAT : string := "chat".

(** Modelled from the spec: the status strings [ModelVersionStatus.to_string]
    gives for [PENDING_REGISTRATION] and [READY]. *)
Definition PENDING_REGISTRATION : string := "PENDING_REGISTRATION".
Definition READY : string := "READY".

Definition AWAIT_MODEL_VERSION_CREATE_SLEEP_INTERVAL_SECONDS : Z := 3.

Section Entities.
Context `{Runtime}.

(** Modelled from the spec: the [tags] property of [RegisteredModel], the
    user-visible tags, is the tag map [_tags] without the reserved marker
    (the source comments say the same where they read [rm.tags]). *)
Definition rm_tags (rm : RegisteredModel) : tags_repr :=
  match rm__tags rm with
  | TagDict d => TagDict (delete IS_PROMPT_TAG_KEY d)
  | TagList l =>
      TagList (filter (λ tag, key tag ≠ IS_PROMPT_TAG_KEY) l)
  end.

(** Modelled from the spec: [has_prompt_tag] of
    [mlflow.prompt.registry_utils], whether a tag map contains the reserved
    marker. *)
Definition has_prompt_tag (tags : gmap string string) : bool :=
  bool_decide (is_Some (tags !! IS_PROMPT_TAG_KEY)).
End Entities.

(** ** Operations and programs *)

(** The abstract methods of the store, the calls to the tracking store and to
    the tracing client, [time()], [sleep] and the link lock. *)
Inductive op : Type :=
| get_registered_model (name : string)
| create_model_version (name source : string) (tags : list Tag)
    (description : option string)
| get_model_version (name : string) (version : Z)
| get_model_version_by_alias (name alias : string)
| delete_model_version (name : string) (version : Z)
| set_model_version_tag (name : string) (version : Z) (tag : Tag)
| delete_model_version_tag (name : string) (version : Z) (key : string)
| get_trace_info (trace_id : string)
| set_trace_tag (trace_id key value : string)
| get_logged_model (model_id : string)
| set_logged_model_tags (model_id : string) (tags : list Tag)
| get_run (run_id : string)
| set_tag (run_id : string) (tag : Tag)
| time
| sleep (seconds : Z)
| lock_acquire
| lock_release.

(** What an operation returns when it does not raise.  A read of the
    tracking side returns the entity or [None]. *)
Definition ret (o : op) : Type :=
  match o with
  | get_registered_model _ => RegisteredModel
  | create_model_version _ _ _ _ => ModelVersion
  | get_model_version _ _ => ModelVersion
  | get_model_version_by_alias _ _ => ModelVersion
  | get_trace_info _ => option TraceInfo
  | get_logged_model _ => option LoggedModel
  | get_run _ => option Run
  | time => Z
  | _ => unit
  end.

(** A program: it returns, raises, or performs an operation and goes on
    with what the operation returned or raised. *)
Inductive prog (A : Type) : Type :=
| Ret (a : A)
| Raise (e : exn)
| Call (o : op) (k : result (ret o) → prog A).
Arguments Ret {A} a.
Arguments Raise {A} e.
Arguments Call {A} o k.

Fixpoint bind {A B : Type} (p : prog A) (f : A → prog B) : prog B :=
  match p with
  | Ret a => f a
  | Raise e => Raise e
  | Call o k => Call o (λ r, bind (k r) f)
  end.

#[export] Instance prog_ret : MRet prog := @Ret.
#[export] Instance prog_bind : MBind prog := λ A B f p, bind p f.

(** Perform one operation; what it raises propagates. *)
Definition call (o : op) : prog (ret o) :=
  Call o (λ r, match r with Ok x => Ret x | Exc e => Raise e end).

Definition lift {A : Type} (r : result A) : prog A :=
  match r with Ok a => Ret a | Exc e => Raise e end.

(** [try: p  except: handle e] *)
Fixpoint try_except {A : Type} (p : prog A) (handle : exn → prog A) : prog A :=
  match p with
  | Ret a => Ret a
  | Raise e => handle e
  | Call o k => Call o (λ r, try_except (k r) handle)
  end.

(** [try: p  finally: q] *)
Fixpoint try_finally {A : Type} (p : prog A) (q : prog unit) : prog A :=
  match p with
  | Ret a => bind q (λ _, Ret a)
  | Raise e => bind q (λ _, Raise e)
  | Call o k => Call o (λ r, try_finally (k r) q)
  end.

(** [with self._prompt_link_lock: body] *)
Definition with_prompt_link_lock {A : Type} (body : prog A) : prog A :=
  bind (call lock_acquire) (λ _, try_finally body (call lock_release)).

(** ** Running a program *)

(** A handler answers every operation in a world [W] of its own. *)
Definition handler (W : Type) : Type := ∀ o : op, W → result (ret o) * W.

(** An operation together with its answer. *)
Definition event : Type := { o : op & result (ret o) }.

Record outcome (W A : Type) : Type := mkOutcome {
  res : result A;
  final : W;
  log : list event
}.
Arguments mkOutcome {W A} res final log.
Arguments res {W A} o.
Arguments final {W A} o.
Arguments log {W A} o.

Fixpoint run {W A : Type} (h : handler W) (p : prog A) (w : W) : outcome W A :=
  match p with
  | Ret a => mkOutcome (Ok a) w []
  | Raise e => mkOutcome (Exc e) w []
  | Call o k =>
      let '(r, w') := h o w in
      let out := run h (k r) w' in
      mkOutcome (res out) (final out) (existT o r :: log out)
  end.

(** The operations of a log, without their answers. *)
Definition ops (l : list event) : list op := map (λ ev, projT1 ev) l.

(** The operations that write a tag of a trace, a logged model or a run. *)
Definition is_link_write (o : op) : bool :=
  match o with
  | set_trace_tag _ _ _ | set_logged_model_tags _ _ | set_tag _ _ => true
  | _ => false
  end.

(** ** The methods of [AbstractStore] *)

(** A link entry, the dict [{"name": ..., "version": ...}] the three link
    methods build; both values are strings. *)
Record link_entry : Type := mkEntry { entry_name : string; entry_version : string }.

(** The dict as a Python value, in the order the source writes its keys. *)
Definition entry_value (e : link_entry) : pyval :=
  PDict [("name"%string, PStr (entry_name e)); ("version"%string, PStr (entry_version e))].

(** [entry == v] for the dict of an entry and a parsed JSON value [v]: equal
    dicts have as many items, and every key of one has an equal value in the
    other, in any order; a string equals a string only. *)
Definition entry_eq (e : link_entry) (v : pyval) : bool :=
  match v with
  | PDict items =>
      Nat.eqb (length items) 2
      && match dict_get "name" items with
         | Some (PStr s) => String.eqb s (entry_name e)
         | _ => false
         end
      && match dict_get "version" items with
         | Some (PStr s) => String.eqb s (entry_version e)
         | _ => false
         end
  | _ => false
  end.

(** [entry in l] *)
Definition entry_in (e : link_entry) (l : list pyval) : bool := existsb (entry_eq e) l.

(** The loop of [_update_linked_prompts_tag]: an entry that is not yet in
    the list is appended to it. *)
Definition merge_entries (parsed : list pyval) (new_prompt_entries : list link_entry)
  : list pyval :=
  foldl (λ acc e, if entry_in e acc then acc else acc ++ [entry_value e])
        parsed new_prompt_entries.

(** What an f-string prints for an optional string. *)
Definition fmt_opt (o : option string) : string :=
  match o with Some s => s | None => "None" end.

Section Methods.
Context `{Runtime}.

Definition is_prompt (internal_tags : gmap string string) : bool :=
  bool_decide (internal_tags !! IS_PROMPT_TAG_KEY = Some "true"%string).

(** Lines 647-686. *)
Definition get_prompt (name : string) : prog (option Prompt) :=
  try_except
    (rm ← call (get_registered_model name);
     let internal_tags := tags_as_dict (rm__tags rm) in
     if negb (is_prompt internal_tags) then Ret None
     else
       let user_tags := tags_as_dict (rm_tags rm) in
       Ret (Some (mkPrompt (rm_name rm) (rm_description rm)
                    (rm_creation_timestamp rm) user_tags)))
    (λ _, Ret None).

Definition tag_of_item (kv : string * string) : Tag := mkTag kv.1 kv.2.

(** The tags [create_prompt_version] gives to the new version
    (lines 720-742). *)
Definition version_tags (tpl : template) (tags : option (list (string * string)))
    (rf : option response_format) : list Tag :=
  [mkTag IS_PROMPT_TAG_KEY "true"]
  ++ match tpl with
     | TText s =>
         [mkTag PROMPT_TEXT_TAG_KEY s; mkTag PROMPT_TYPE_TAG_KEY PROMPT_TYPE_TEXT]
     | TChat messages =>
         [mkTag PROMPT_TEXT_TAG_KEY (json_dumps messages);
          mkTag PROMPT_TYPE_TAG_KEY PROMPT_TYPE_CHAT]
     end
  ++ (if rf_truthy rf then
        match rf with
        | Some f =>
            [mkTag RESPONSE_FORMAT_TAG_KEY
               (json_dumps (convert_response_format_to_dict f))]
        | None => []
        end
      else [])
  ++ match tags with
     | Some items => tag_of_item <$> items
     | None => []
     end.

(** Lines 688-759. *)
Definition create_prompt_version (name : string) (tpl : template)
    (description : option string) (tags : option (list (string * string)))
    (rf : option response_format) : prog PromptVersion :=
  mv ← call (create_model_version name "prompt-template"
               (version_tags tpl tags rf) description);
  rm ← call (get_registered_model name);
  let prompt_tags := tags_as_dict (rm_tags rm) in
  lift (model_version_to_prompt_version mv prompt_tags).

Definition not_a_prompt_message (name : string) : string :=
  "Name `" +:+ name +:+ "` is registered as a model, not a prompt. "
  +:+ "Use get_model_version() or load_model() instead.".

(** Lines 761-816. *)
Definition get_prompt_version (name : string) (version : version_arg)
  : prog (option PromptVersion) :=
  try_except
    (rm ← call (get_registered_model name);
     let internal_tags := tags_as_dict (rm__tags rm) in
     if negb (is_prompt internal_tags) then
       Raise (MlflowException (not_a_prompt_message name)
                (Some INVALID_PARAMETER_VALUE))
     else
       mv ← try_except
              (match PyInt.of_str (py_str version) with
               | Some version_int => call (get_model_version name version_int)
               | None => Raise (PyError ValueError)
               end)
              (λ e, if is_value_or_type_error e
                    then call (get_model_version_by_alias name (py_str version))
                    else Raise e);
       if negb (has_prompt_tag (mv_tags mv)) then Ret None
       else
         let prompt_tags := tags_as_dict (rm_tags rm) in
         pv ← lift (model_version_to_prompt_version mv prompt_tags);
         Ret (Some pv))
    (λ e, if is_mlflow_exception e then Raise e else Ret None).

Definition invalid_version_message (version : version_arg) : string :=
  "Invalid version number: " +:+ py_str version.

(** Lines 818-834. *)
Definition delete_prompt_version (name : string) (version : version_arg)
  : prog unit :=
  match py_int version with
  | None => Raise (MlflowException (invalid_version_message version) None)
  | Some version_int => call (delete_model_version name version_int)
  end.

(** Lines 836-849. *)
Definition get_prompt_version_by_alias (name alias : string)
  : prog (option PromptVersion) :=
  get_prompt_version name (VStr alias).

(** Lines 943-966. *)
Definition set_prompt_version_tag (name : string) (version : version_arg)
    (key value : string) : prog unit :=
  match py_int version with
  | None => Raise (MlflowException (invalid_version_message version) None)
  | Some version_int =>
      let tag := mkTag key value in
      call (set_model_version_tag name version_int tag)
  end.

(** Lines 968-987. *)
Definition delete_prompt_version_tag (name : string) (version : version_arg)
    (key : string) : prog unit :=
  match py_int version with
  | None => Raise (MlflowException (invalid_version_message version) None)
  | Some version_int => call (delete_model_version_tag name version_int key)
  end.

Definition invalid_format_message (current_tag_value : string) : string :=
  "Invalid format for '" +:+ LINKED_PROMPTS_TAG_KEY +:+ "' tag: "
  +:+ current_tag_value.

Definition invalid_json_message (current_tag_value : string) : string :=
  "Invalid JSON format for '" +:+ LINKED_PROMPTS_TAG_KEY +:+ "' tag: "
  +:+ current_tag_value.

(** Lines 1097-1109: the list the tag holds now. *)
Definition parse_linked_prompts (current_tag_value : option string)
  : result (list pyval) :=
  match current_tag_value with
  | Some s =>
      match json_loads s with
      | Some (PList parsed) => Ok parsed
      | Some _ => Exc (MlflowException (invalid_format_message s) None)
      | None => Exc (MlflowException (invalid_json_message s) None)
      end
  | None => Ok []
  end.

(** Lines 1081-1116. *)
Definition _update_linked_prompts_tag (current_tag_value : option string)
    (new_prompt_entries : list link_entry) : result string :=
  match parse_linked_prompts current_tag_value with
  | Ok parsed => Ok (json_dumps (PList (merge_entries parsed new_prompt_entries)))
  | Exc e => Exc e
  end.

Definition entry_of (prompt_version : PromptVersion) : link_entry :=
  mkEntry (pv_name prompt_version) (str_of_int (pv_version prompt_version)).

Definition no_trace_message (trace_id : string) : string :=
  "Could not find trace with ID '" +:+ trace_id +:+ "' to which to link prompts.".

(** Lines 899-941. *)
Definition link_prompts_to_trace (prompt_versions : list PromptVersion)
    (trace_id : string) : prog unit :=
  with_prompt_link_lock
    (trace_info ← call (get_trace_info trace_id);
     match trace_info with
     | None =>
         Raise (MlflowException (no_trace_message trace_id)
                  (Some RESOURCE_DOES_NOT_EXIST))
     | Some trace_info =>
         let new_prompt_entries := entry_of <$> prompt_versions in
         let current_tag_value := ti_tags trace_info !! LINKED_PROMPTS_TAG_KEY in
         updated_tag_value ←
           lift (_update_linked_prompts_tag current_tag_value new_prompt_entries);
         if bool_decide (current_tag_value ≠ Some updated_tag_value) then
           call (set_trace_tag trace_id LINKED_PROMPTS_TAG_KEY updated_tag_value)
         else Ret tt
     end).

(** [{"name": prompt_version.name, "version": str(prompt_version.version)}]
    where [prompt_version] may be [None]. *)
Definition new_prompt_entry (prompt_version : option PromptVersion)
  : prog link_entry :=
  match prompt_version with
  | Some pv => Ret (entry_of pv)
  | None => Raise (PyError AttributeError)
  end.

Definition no_model_message (model_id name : string) : string :=
  "Could not find model with ID '" +:+ model_id
  +:+ "' to which to link prompt '" +:+ name +:+ "'.".

(** Lines 989-1032. *)
Definition link_prompt_version_to_model (name version model_id : string)
  : prog unit :=
  prompt_version ← get_prompt_version name (VStr version);
  with_prompt_link_lock
    (logged_model ← call (get_logged_model model_id);
     match logged_model with
     | None =>
         Raise (MlflowException (no_model_message model_id name)
                  (Some RESOURCE_DOES_NOT_EXIST))
     | Some logged_model =>
         entry ← new_prompt_entry prompt_version;
         let current_tag_value := lm_tags logged_model !! LINKED_PROMPTS_TAG_KEY in
         updated_tag_value ←
           lift (_update_linked_prompts_tag current_tag_value [entry]);
         if bool_decide (current_tag_value ≠ Some updated_tag_value) then
           call (set_logged_model_tags model_id
                   [mkTag LINKED_PROMPTS_TAG_KEY updated_tag_value])
         else Ret tt
     end).

Definition no_run_message (run_id name : string) : string :=
  "Could not find run with ID '" +:+ run_id
  +:+ "' to which to link prompt '" +:+ name +:+ "'.".

(** Lines 1063-1070: the tag of a run, from a dict or from the first tag
    object with the key. *)
Definition run_linked_prompts (run : Run) : option string :=
  match run_data_tags run with
  | TagDict d => d !! LINKED_PROMPTS_TAG_KEY
  | TagList l =>
      value <$> List.find (λ tag, String.eqb (key tag) LINKED_PROMPTS_TAG_KEY) l
  end.

(** Lines 1034-1079. *)
Definition link_prompt_version_to_run (name version run_id : string)
  : prog unit :=
  prompt_version ← get_prompt_version name (VStr version);
  with_prompt_link_lock
    (run ← call (get_run run_id);
     match run with
     | None =>
         Raise (MlflowException (no_run_message run_id name)
                  (Some RESOURCE_DOES_NOT_EXIST))
     | Some run =>
         entry ← new_prompt_entry prompt_version;
         let current_tag_value := run_linked_prompts run in
         updated_tag_value ←
           lift (_update_linked_prompts_tag current_tag_value [entry]);
         if bool_decide (current_tag_value ≠ Some updated_tag_value) then
           call (set_tag run_id (mkTag LINKED_PROMPTS_TAG_KEY updated_tag_value))
         else Ret tt
     end).
End Methods.

(** ** The poller *)

(** [s.lower()] on ASCII text. *)
Definition lower_char (c : ascii) : ascii :=
  let n := nat_of_ascii c in
  if Nat.leb 65 n && Nat.leb n 90 then ascii_of_nat (n + 32) else c.

Fixpoint lower (s : string) : string :=
  match s with
  | EmptyString => EmptyString
  | String c rest => String (lower_char c) (lower rest)
  end.

Section Poller.
Context `{Runtime}.

Definition entity_type (mv : ModelVersion) : string :=
  if has_prompt_tag (mv_tags mv) then "Prompt" else "Model".

(** Lines 490-494.  Times and durations are whole seconds. *)
Definition timeout_message (mv : ModelVersion) (await_creation_for : Z)
    (hint : string) : string :=
  "Exceeded max wait time for model name: " +:+ mv_name mv
  +:+ " version: " +:+ str_of_int (mv_version mv)
  +:+ " to become READY. Status: " +:+ mv_status mv
  +:+ " Wait Time: " +:+ str_of_int await_creation_for
  +:+ "." +:+ hint.

(** Lines 500-503. *)
Definition creation_failed_message (entity_type : string) (mv : ModelVersion)
  : string :=
  entity_type +:+ " version creation failed for " +:+ lower entity_type
  +:+ " name: " +:+ mv_name mv
  +:+ " version: " +:+ str_of_int (mv_version mv)
  +:+ " with status: " +:+ mv_status mv
  +:+ " and message: " +:+ fmt_opt (mv_status_message mv).

Definition is_pending (mv : ModelVersion) : bool :=
  bool_decide (mv_status mv = PENDING_REGISTRATION).

(** Lines 488-498, the [while] loop; it returns the version it leaves
    the loop with.  [fuel] bounds the number of rounds: [None] says the
    bound was reached with the version still pending. *)
Fixpoint await_loop (fuel : nat) (max_time await_creation_for : Z) (hint : string)
    (mv : ModelVersion) : prog (option ModelVersion) :=
  if is_pending mv then
    match fuel with
    | O => Ret None
    | S fuel' =>
        now ← call time;
        if Z.ltb max_time now then
          Raise (MlflowException (timeout_message mv await_creation_for hint) None)
        else
          mv' ← call (get_model_version (mv_name mv) (mv_version mv));
          if negb (is_pending mv') then Ret (Some mv')
          else
            call (sleep AWAIT_MODEL_VERSION_CREATE_SLEEP_INTERVAL_SECONDS);;
            await_loop fuel' max_time await_creation_for hint mv'
    end
  else Ret (Some mv).

(** Lines 480-503.  The answer [Some tt] is the normal return. *)
Definition _await_model_version_creation_impl (fuel : nat) (mv : ModelVersion)
    (await_creation_for : Z) (hint : string) : prog (option unit) :=
  let entity_type := entity_type mv in
  start ← call time;
  let max_time := start + await_creation_for in
  left ← await_loop fuel max_time await_creation_for hint mv;
  match left with
  | None => Ret None
  | Some mv =>
      if negb (bool_decide (mv_status mv = READY)) then
        Raise (MlflowException (creation_failed_message entity_type mv) None)
      else Ret (Some tt)
  end.

(** Lines 469-478. *)
Definition _await_model_version_creation (fuel : nat) (mv : ModelVersion)
    (await_creation_for : Z) : prog (option unit) :=
  _await_model_version_creation_impl fuel mv await_creation_for EmptyString.
End Poller.

(** ** A reference runtime and an in-memory backend

    One instance of what the development is parametric in, to run the
    methods on concrete inputs: a JSON codec for Latin-1 text in the format
    of [json.dumps] (items separated by a comma and a space, keys by a colon
    and a space, other characters escaped), and a handler that keeps the
    registry, the traces, the logged models and the runs in maps. *)
Module Reference.

Definition dq : ascii := "034"%char.
Definition bs : ascii := "092"%char.

Definition hex_digit (n : nat) : ascii :=
  if Nat.ltb n 10 then ascii_of_nat (48 + n) else ascii_of_nat (87 + n).

Definition escape_char (c : ascii) : list ascii :=
  let n := nat_of_ascii c in
  if Ascii.eqb c dq then [bs; dq]
  else if Ascii.eqb c bs then [bs; bs]
  else if Nat.eqb n 10 then [bs; "n"%char]
  else if Nat.eqb n 13 then [bs; "r"%char]
  else if Nat.eqb n 9 then [bs; "t"%char]
  else if Nat.eqb n 8 then [bs; "b"%char]
  else if Nat.eqb n 12 then [bs; "f"%char]
  else if Nat.leb 32 n && Nat.leb n 126 then [c]
  else [bs; "u"%char; "0"%char; "0"%char;
        hex_digit (Nat.div n 16); hex_digit (Nat.modulo n 16)].

Definition dump_str (s : string) : list ascii :=
  dq :: flat_map escape_char (list_ascii_of_string s) ++ [dq].

Definition chars (s : string) : list ascii := list_ascii_of_string s.

Fixpoint dump (v : pyval) : list ascii :=
  match v with
  | PNone => chars "null"
  | PBool true => chars "true"
  | PBool false => chars "false"
  | PInt n => chars (str_of_int n)
  | PFloat r => chars r
  | PStr s => dump_str s
  | PList l =>
      let fix elements (l : list pyval) : list ascii :=
        match l with
        | [] => []
        | [x] => dump x
        | x :: rest => dump x ++ chars ", " ++ elements rest
        end in
      chars "[" ++ elements l ++ chars "]"
  | PDict items =>
      let fix members (l : list (string * pyval)) : list ascii :=
        match l with
        | [] => []
        | [(k, x)] => dump_str k ++ chars ": " ++ dump x
        | (k, x) :: rest => dump_str k ++ chars ": " ++ dump x ++ chars ", " ++ members rest
        end in
      chars "{" ++ members items ++ chars "}"
  end.

Definition dumps (v : pyval) : string := string_of_list_ascii (dump v).

Fixpoint skip_ws (l : list ascii) : list ascii :=
  match l with
  | c :: rest =>
      let n := nat_of_ascii c in
      if Nat.eqb n 32 || Nat.eqb n 9 || Nat.eqb n 10 || Nat.eqb n 13
      then skip_ws rest else l
  | [] => []
  end.

Definition is_digit (c : ascii) : bool :=
  let n := nat_of_ascii c in Nat.leb 48 n && Nat.leb n 57.

Fixpoint take_digits (l : list ascii) : list ascii * list ascii :=
  match l with
  | c :: rest =>
      if is_digit c then let '(d, r) := take_digits rest in (c :: d, r) else ([], l)
  | [] => ([], [])
  end.

Definition parse_frac (l : list ascii) : list ascii * list ascii :=
  match l with
  | "."%char :: r =>
      let '(d, r') := take_digits r in
      if d is [] then ([], l) else ("."%char :: d, r')
  | _ => ([], l)
  end.

Definition parse_exp (l : list ascii) : list ascii * list ascii :=
  match l with
  | e :: r =>
      if Ascii.eqb e "e" || Ascii.eqb e "E" then
        let '(sign, r1) :=
          match r with
          | s :: r1 =>
              if Ascii.eqb s "+" || Ascii.eqb s "-" then ([s], r1) else ([], r)
          | [] => ([], r)
          end in
        let '(d, r2) := take_digits r1 in
        if d is [] then ([], l) else (e :: sign ++ d, r2)
      else ([], l)
  | [] => ([], l)
  end.

(** A number: an int when it has neither fraction nor exponent. *)
Definition parse_number (l : list ascii) : option (pyval * list ascii) :=
  let '(sign, l1) := match l with "-"%char :: r => (["-"%char], r) | _ => ([], l) end in
  let '(int_part, l2) := take_digits l1 in
  match int_part with
  | [] => None
  | "0"%char :: _ :: _ => None
  | _ =>
      let '(frac, l3) := parse_frac l2 in
      let '(exp, l4) := parse_exp l3 in
      match frac ++ exp with
      | [] =>
          match PyInt.digits 0 false int_part with
          | Some n => Some (PInt (if sign is [] then n else - n), l4)
          | None => None
          end
      | tail => Some (PFloat (string_of_list_ascii (sign ++ int_part ++ tail)), l4)
      end
  end.

Definition hex_value (c : ascii) : option nat :=
  let n := nat_of_ascii c in
  if Nat.leb 48 n && Nat.leb n 57 then Some (n - 48)%nat
  else if Nat.leb 97 n && Nat.leb n 102 then Some (n - 87)%nat
  else if Nat.leb 65 n && Nat.leb n 70 then Some (n - 55)%nat
  else None.

(** The characters of a string up to its closing quote. *)
Fixpoint parse_chars (l : list ascii) (acc : list ascii)
  : option (string * list ascii) :=
  match l with
  | [] => None
  | c :: rest =>
      if Ascii.eqb c dq then Some (string_of_list_ascii (rev acc), rest)
      else if Ascii.eqb c bs then
        match rest with
        | "n"%char :: r => parse_chars r ("010"%char :: acc)
        | "r"%char :: r => parse_chars r ("013"%char :: acc)
        | "t"%char :: r => parse_chars r ("009"%char :: acc)
        | "b"%char :: r => parse_chars r ("008"%char :: acc)
        | "f"%char :: r => parse_chars r ("012"%char :: acc)
        | "/"%char :: r => parse_chars r ("/"%char :: acc)
        | "u"%char :: "0"%char :: "0"%char :: a :: b :: r =>
            match hex_value a, hex_value b with
            | Some x, Some y => parse_chars r (ascii_of_nat (16 * x + y) :: acc)
            | _, _ => None
            end
        | c' :: r =>
            if Ascii.eqb c' dq || Ascii.eqb c' bs then parse_chars r (c' :: acc)
            else None
        | [] => None
        end
      else if Nat.ltb (nat_of_ascii c) 32 then None
      else parse_chars rest (c :: acc)
  end.

(** [d[k] = v]: a key that is there keeps its place. *)
Fixpoint dict_set (k : string) (v : pyval) (items : list (string * pyval))
  : list (string * pyval) :=
  match items with
  | [] => [(k, v)]
  | (k', v') :: rest =>
      if String.eqb k k' then (k, v) :: rest else (k', v') :: dict_set k v rest
  end.

Fixpoint parse_value (fuel : nat) (l : list ascii) : option (pyval * list ascii) :=
  match fuel with
  | O => None
  | S fuel' =>
      match skip_ws l with
      | "n"%char :: "u"%char :: "l"%char :: "l"%char :: r => Some (PNone, r)
      | "t"%char :: "r"%char :: "u"%char :: "e"%char :: r => Some (PBool true, r)
      | "f"%char :: "a"%char :: "l"%char :: "s"%char :: "e"%char :: r =>
          Some (PBool false, r)
      | "["%char :: r =>
          match skip_ws r with
          | "]"%char :: r' => Some (PList [], r')
          | _ => parse_elements fuel' [] r
          end
      | "{"%char :: r =>
          match skip_ws r with
          | "}"%char :: r' => Some (PDict [], r')
          | _ => parse_members fuel' [] r
          end
      | c :: r =>
          if Ascii.eqb c dq then
            match parse_chars r [] with
            | Some (s, r') => Some (PStr s, r')
            | None => None
            end
          else parse_number (c :: r)
      | [] => None
      end
  end
with parse_elements (fuel : nat) (acc : list pyval) (l : list ascii)
  : option (pyval * list ascii) :=
  match fuel with
  | O => None
  | S fuel' =>
      match parse_value fuel' l with
      | Some (v, r) =>
          match skip_ws r with
          | ","%char :: r' => parse_elements fuel' (acc ++ [v]) r'
          | "]"%char :: r' => Some (PList (acc ++ [v]), r')
          | _ => None
          end
      | None => None
      end
  end
with parse_members (fuel : nat) (acc : list (string * pyval)) (l : list ascii)
  : option (pyval * list ascii) :=
  match fuel with
  | O => None
  | S fuel' =>
      match skip_ws l with
      | c :: r =>
          if Ascii.eqb c dq then
            match parse_chars r [] with
            | Some (k, r1) =>
                match skip_ws r1 with
                | ":"%char :: r2 =>
                    match parse_value fuel' r2 with
                    | Some (v, r3) =>
                        match skip_ws r3 with
                        | ","%char :: r' => parse_members fuel' (dict_set k v acc) r'
                        | "}"%char :: r' => Some (PDict (dict_set k v acc), r')
                        | _ => None
                        end
                    | None => None
                    end
                | _ => None
                end
            | None => None
            end
          else None
      | [] => None
      end
  end.

Definition loads (s : string) : option pyval :=
  let l := list_ascii_of_string s in
  match parse_value (2 * length l + 2) l with
  | Some (v, rest) => if skip_ws rest is [] then Some v else None
  | None => None
  end.
End Reference.

(** The reference runtime.  The tag keys are those of
    [mlflow.prompt.constants]. *)
Module Backend.
Import Reference.

Definition to_prompt_version (mv : ModelVersion) (prompt_tags : gmap string string)
  : result PromptVersion :=
  match mv_tags mv !! "mlflow.prompt.text"%string with
  | Some text => Ok (mkPromptVersion (mv_name mv) (mv_version mv) (PStr text) (mv_tags mv))
  | None =>
      Exc (MlflowException
             ("Prompt `" +:+ mv_name mv +:+ "` does not contain a prompt text")
             (Some INVALID_PARAMETER_VALUE))
  end.

Definition schema_of (rf : response_format) : pyval :=
  match rf with
  | RFModel class_name =>
      PDict [("title"%string, PStr class_name); ("type"%string, PStr "object")]
  | RFDict d => PDict d
  end.

#[export] Instance runtime : Runtime := {|
  IS_PROMPT_TAG_KEY := "mlflow.prompt.is_prompt";
  LINKED_PROMPTS_TAG_KEY := "mlflow.linkedPrompts";
  PROMPT_TEXT_TAG_KEY := "mlflow.prompt.text";
  PROMPT_TYPE_TAG_KEY := "_mlflow_prompt_type";
  RESPONSE_FORMAT_TAG_KEY := "_mlflow_prompt_response_format";
  json_loads := loads;
  json_dumps := dumps;
  model_version_to_prompt_version := to_prompt_version;
  convert_response_format_to_dict := schema_of
|}.

(** The state of the backend.  A version that is pending stays so for
    [w_pending_polls] more reads and then takes the status
    [w_final_status]; [w_fault], when set, is what reading a version by
    its number raises. *)
Record world : Type := mkWorld {
  w_now : Z;
  w_models : gmap string RegisteredModel;
  w_versions : list ModelVersion;
  w_aliases : gmap (string * string) Z;
  w_pending_polls : nat;
  w_final_status : string;
  w_fault : option exn;
  w_traces : gmap string TraceInfo;
  w_logged_models : gmap string LoggedModel;
  w_runs : gmap string Run;
  w_lock : nat
}.

Definition same_version (name : string) (version : Z) (mv : ModelVersion) : bool :=
  String.eqb (mv_name mv) name && Z.eqb (mv_version mv) version.

Definition find_version (w : world) (name : string) (version : Z)
  : option ModelVersion :=
  List.find (same_version name version) (w_versions w).

Definition not_found (what : string) : exn :=
  MlflowException (what +:+ " not found") (Some RESOURCE_DOES_NOT_EXIST).

Definition with_versions (w : world) (vs : list ModelVersion) : world :=
  mkWorld (w_now w) (w_models w) vs (w_aliases w) (w_pending_polls w)
    (w_final_status w) (w_fault w) (w_traces w) (w_logged_models w) (w_runs w)
    (w_lock w).

Definition with_status (mv : ModelVersion) (status : string) : ModelVersion :=
  mkModelVersion (mv_name mv) (mv_version mv) status (mv_status_message mv)
    (mv_description mv) (mv_tags mv).

Definition with_tags (mv : ModelVersion) (tags : gmap string string) : ModelVersion :=
  mkModelVersion (mv_name mv) (mv_version mv) (mv_status mv) (mv_status_message mv)
    (mv_description mv) tags.

Definition update_version (w : world) (name : string) (version : Z)
    (f : ModelVersion → ModelVersion) : world :=
  with_versions w
    ((λ mv, if same_version name version mv then f mv else mv) <$> w_versions w).

(** Reading a version: the backing process finishes the registration
    after the polls that are left. *)
Definition read_version (w : world) (name : string) (version : Z)
  : result ModelVersion * world :=
  match w_fault w with
  | Some e => (Exc e, w)
  | None =>
      match find_version w name version with
      | None => (Exc (not_found "Model version"), w)
      | Some mv =>
          if bool_decide (mv_status mv = PENDING_REGISTRATION) then
            match w_pending_polls w with
            | O =>
                let w' := update_version w name version
                            (λ mv, with_status mv (w_final_status w)) in
                (Ok (with_status mv (w_final_status w)), w')
            | S n =>
                (Ok mv,
                 mkWorld (w_now w) (w_models w) (w_versions w) (w_aliases w) n
                   (w_final_status w) (w_fault w) (w_traces w) (w_logged_models w)
                   (w_runs w) (w_lock w))
            end
          else (Ok mv, w)
      end
  end.

Definition next_version (w : world) (name : string) : Z :=
  1 + foldr (λ mv acc, if String.eqb (mv_name mv) name
                       then Z.max (mv_version mv) acc else acc) 0 (w_versions w).

Definition set_clock_lock (w : world) (now : Z) (lock : nat) : world :=
  mkWorld now (w_models w) (w_versions w) (w_aliases w) (w_pending_polls w)
    (w_final_status w) (w_fault w) (w_traces w) (w_logged_models w) (w_runs w) lock.

Definition set_tracking (w : world) (traces : gmap string TraceInfo)
    (models : gmap string LoggedModel) (runs : gmap string Run) : world :=
  mkWorld (w_now w) (w_models w) (w_versions w) (w_aliases w) (w_pending_polls w)
    (w_final_status w) (w_fault w) traces models runs (w_lock w).

Definition run_with_tag (r : Run) (tag : Tag) : Run :=
  match run_data_tags r with
  | TagDict d => mkRun (TagDict (<[key tag := value tag]> d))
  | TagList l =>
      mkRun (TagList (filter (λ t, key t ≠ key tag) l ++ [tag]))
  end.

Definition handle : handler world := λ o,
  match o return world → result (ret o) * world with
  | get_registered_model name => λ w,
      (match w_models w !! name with
       | Some rm => Ok rm
       | None => Exc (not_found "Registered model")
       end, w)
  | create_model_version name source tags description => λ w,
      match w_models w !! name with
      | None => (Exc (not_found "Registered model"), w)
      | Some _ =>
          let mv := mkModelVersion name (next_version w name) READY None
                      description (dict_of_tags tags) in
          (Ok mv, with_versions w (w_versions w ++ [mv]))
      end
  | get_model_version name version => λ w, read_version w name version
  | get_model_version_by_alias name alias => λ w,
      (match w_aliases w !! (name, alias) with
       | Some version =>
           match find_version w name version with
           | Some mv => Ok mv
           | None => Exc (not_found "Model version")
           end
       | None => Exc (not_found "Registered model alias")
       end, w)
  | delete_model_version name version => λ w,
      match find_version w name version with
      | Some _ =>
          (Ok tt, with_versions w
                    (List.filter (λ mv, negb (same_version name version mv))
                       (w_versions w)))
      | None => (Exc (not_found "Model version"), w)
      end
  | set_model_version_tag name version tag => λ w,
      match find_version w name version with
      | Some _ =>
          (Ok tt, update_version w name version
                    (λ mv, with_tags mv (<[key tag := value tag]> (mv_tags mv))))
      | None => (Exc (not_found "Model version"), w)
      end
  | delete_model_version_tag name version k => λ w,
      match find_version w name version with
      | Some _ =>
          (Ok tt, update_version w name version
                    (λ mv, with_tags mv (delete k (mv_tags mv))))
      | None => (Exc (not_found "Model version"), w)
      end
  | get_trace_info trace_id => λ w, (Ok (w_traces w !! trace_id), w)
  | set_trace_tag trace_id k v => λ w,
      match w_traces w !! trace_id with
      | Some ti =>
          (Ok tt, set_tracking w
                    (<[trace_id := mkTraceInfo (<[k := v]> (ti_tags ti))]> (w_traces w))
                    (w_logged_models w) (w_runs w))
      | None => (Exc (not_found "Trace"), w)
      end
  | get_logged_model model_id => λ w, (Ok (w_logged_models w !! model_id), w)
  | set_logged_model_tags model_id tags => λ w,
      match w_logged_models w !! model_id with
      | Some lm =>
          (Ok tt, set_tracking w (w_traces w)
                    (<[model_id := mkLoggedModel
                                     (foldl (λ d tag, <[key tag := value tag]> d)
                                        (lm_tags lm) tags)]> (w_logged_models w))
                    (w_runs w))
      | None => (Exc (not_found "Logged model"), w)
      end
  | get_run run_id => λ w, (Ok (w_runs w !! run_id), w)
  | set_tag run_id tag => λ w,
      match w_runs w !! run_id with
      | Some r =>
          (Ok tt, set_tracking w (w_traces w) (w_logged_models w)
                    (<[run_id := run_with_tag r tag]> (w_runs w)))
      | None => (Exc (not_found "Run"), w)
      end
  | time => λ w, (Ok (w_now w), w)
  | sleep seconds => λ w, (Ok tt, set_clock_lock w (w_now w + seconds) (w_lock w))
  | lock_acquire => λ w, (Ok tt, set_clock_lock w (w_now w) (S (w_lock w)))
  | lock_release => λ w, (Ok tt, set_clock_lock w (w_now w) (Nat.pred (w_lock w)))
  end.

Definition empty : world :=
  mkWorld 0 ∅ [] ∅ 0 READY None ∅ ∅ ∅ 0.
End Backend.

(** A registry, a trace, a logged model and a run to run the methods on. *)
Module Scenario.
Import Reference Backend.

(** A prompt with one tag of its user. *)
Definition greeting : RegisteredModel :=
  mkRegisteredModel "greeting" None (Some 0)
    (TagDict {[ "mlflow.prompt.is_prompt"%string := "true"%string;
                "team"%string := "docs"%string ]}).

(** A registered model that is not a prompt. *)
Definition classifier : RegisteredModel :=
  mkRegisteredModel "classifier" None (Some 0)
    (TagList [mkTag "stage" "prod"]).

Definition prompt_version_tags (text : string) : gmap string string :=
  {[ "mlflow.prompt.is_prompt"%string := "true"%string;
     "mlflow.prompt.text"%string := text;
     "_mlflow_prompt_type"%string := "text"%string ]}.

Definition v1 : ModelVersion :=
  mkModelVersion "greeting" 1 READY None None (prompt_version_tags "Hello {{name}}").

(** A version of the same name that is not a prompt version. *)
Definition v2 : ModelVersion :=
  mkModelVersion "greeting" 2 READY None None ∅.

Definition v3 : ModelVersion :=
  mkModelVersion "greeting" 3 READY None None (prompt_version_tags "Bye {{name}}").

Definition v4 : ModelVersion :=
  mkModelVersion "greeting" 4 PENDING_REGISTRATION None None
    (prompt_version_tags "Hi {{name}}").

Definition pv1 : PromptVersion :=
  mkPromptVersion "greeting" 1 (PStr "Hello {{name}}")
    (prompt_version_tags "Hello {{name}}").

Definition pv3 : PromptVersion :=
  mkPromptVersion "greeting" 3 (PStr "Bye {{name}}")
    (prompt_version_tags "Bye {{name}}").

Definition linked_v1 : list pyval := [entry_value (mkEntry "greeting" "1")].

(** The tag value after version 1 was linked. *)
Definition linked_once : string := dumps (PList linked_v1).

Definition tagged (v : string) : gmap string string :=
  {[ "mlflow.linkedPrompts"%string := v ]}.

(** The alias "3" points to version 1, the alias "1" to version 3. *)
Definition base : world :=
  mkWorld 0
    {[ "greeting"%string := greeting; "classifier"%string := classifier ]}
    [v1; v2; v3; v4]
    {[ ("greeting"%string, "3"%string) := 1; ("greeting"%string, "1"%string) := 3 ]}
    2 READY None
    {[ "trace-42"%string := mkTraceInfo ∅;
       "trace-linked"%string := mkTraceInfo (tagged linked_once);
       "trace-bad"%string := mkTraceInfo (tagged "not json") ]}
    {[ "model-linked"%string := mkLoggedModel (tagged linked_once);
       "model-bad"%string := mkLoggedModel (tagged "{}") ]}
    {[ "run-linked"%string := mkRun (TagList [mkTag "mlflow.linkedPrompts" linked_once]);
       "run-bad"%string := mkRun (TagDict (tagged "42")) ]}
    0.

(** The same, where version 4 stays pending for many reads. *)
Definition stuck : world :=
  mkWorld 0 (w_models base) (w_versions base) (w_aliases base) 100 READY None
    (w_traces base) (w_logged_models base) (w_runs base) 0.

(** The same, where the registration of version 4 fails at the second read. *)
Definition failing : world :=
  mkWorld 0 (w_models base) (w_versions base) (w_aliases base) 1
    "FAILED_REGISTRATION" None
    (w_traces base) (w_logged_models base) (w_runs base) 0.

(** The same, where reading a version by its number raises a [ValueError]. *)
Definition faulty : world :=
  mkWorld 0 (w_models base) (w_versions base) (w_aliases base) 2 READY
    (Some (PyError ValueError))
    (w_traces base) (w_logged_models base) (w_runs base) 0.
End Scenario.

(** ** How [run] goes through the combinators *)

(** What [bind p f] does, from what [p] did. *)
Definition then_run {W A B : Type} (h : handler W) (first : outcome W A)
    (f : A → prog B) : outcome W B :=
  match res first with
  | Ok a =>
      let second := run h (f a) (final first) in
      mkOutcome (res second) (final second) (log first ++ log second)
  | Exc e => mkOutcome (Exc e) (final first) (log first)
  end.

(** What [try_except p handle] does, from what [p] did. *)
Definition else_run {W A : Type} (h : handler W) (first : outcome W A)
    (handle : exn → prog A) : outcome W A :=
  match res first with
  | Ok a => first
  | Exc e =>
      let second := run h (handle e) (final first) in
      mkOutcome (res second) (final second) (log first ++ log second)
  end.

(** What [try_finally p q] does, from what [p] did. *)
Definition finally_run {W A : Type} (h : handler W) (first : outcome W A)
    (q : prog unit) : outcome W A :=
  let second := run h q (final first) in
  mkOutcome (match res second with Ok _ => res first | Exc e => Exc e end)
    (final second) (log first ++ log second).

(** The reads of the registry [get_prompt_version] performs. *)
Definition is_registry_read (o : op) : bool :=
  match o with
  | get_registered_model _ | get_model_version _ _
  | get_model_version_by_alias _ _ => true
  | _ => false
  end.

(** A tag value that is not valid JSON, or is JSON but not an array. *)
Definition malformed_tag `{Runtime} (s : string) : Prop :=
  ∀ parsed : list pyval, json_loads s ≠ Some (PList parsed).

(** The model version a [get_model_version] event returned, if it is one
    and did not raise. *)
Definition fetched (ev : event) : option ModelVersion :=
  match ev with
  | existT o r =>
      match o return result (ret o) → option ModelVersion with
      | get_model_version _ _ =>
          λ r, match r with Ok mv => Some mv | Exc _ => None end
      | _ => λ _, None
      end r
  end.

(** The version last observed by a poller that started with [mv] and
    performed the events [l]. *)
Fixpoint observed (mv : ModelVersion) (l : list event) : ModelVersion :=
  match l with
  | [] => mv
  | ev :: l' =>
      observed (match fetched ev with Some mv' => mv' | None => mv end) l'
  end.

(** The number of reads of a model version in a log. *)
Definition is_poll (ev : event) : bool :=
  match projT1 ev with
  | get_model_version _ _ => true
  | _ => false
  end.

Definition polls (l : list event) : nat := length (List.filter is_poll l).

(** No operation of the log writes a linked-prompts tag. *)
Definition no_link_write (l : list event) : Prop :=
  Forall (λ o, is_link_write o = false) (ops l).

#[export] Instance link_entry_eq_dec : EqDecision link_entry.
Proof. solve_decision. Defined.

#[export] Instance Tag_eq_dec : EqDecision Tag.
Proof. solve_decision. Defined.

#[export] Instance op_eq_dec : EqDecision op.
Proof. solve_decision. Defined.

(** What [with_prompt_link_lock body] does, from what acquiring the lock
    gave. *)
Definition locked_run {W A : Type} (h : handler W) (body : prog A)
    (acquired : result unit * W) : outcome W A :=
  match acquired.1 with
  | Exc e => mkOutcome (Exc e) acquired.2 [existT lock_acquire acquired.1]
  | Ok _ =>
      let inner := run h body acquired.2 in
      let released := h lock_release (final inner) in
      mkOutcome (match released.1 with Ok _ => res inner | Exc e => Exc e end)
        released.2
        (existT lock_acquire acquired.1
           :: log inner ++ [existT lock_release released.1])
  end.

(** No {name, version} pair is held twice: at most one element of the array
    equals the dict of any one entry. *)
Definition no_duplicate_pairs (l : list pyval) : Prop :=
  ∀ e : link_entry, (length (List.filter (entry_eq e) l) ≤ 1)%nat.

(** The operations on the tracking side: reads and writes of a trace, a
    logged model or a run. *)
Definition is_tracking_op (o : op) : bool :=
  match o with
  | get_trace_info _ | set_trace_tag _ _ _
  | get_logged_model _ | set_logged_model_tags _ _
  | get_run _ | set_tag _ _ => true
  | _ => false
  end.

(** The writes of a linked-prompts tag among the operations of a log. *)
Definition link_writes (l : list event) : list op :=
  List.filter is_link_write (ops l).

(** The log of a section under the link lock: the acquisition that raised,
    or the acquisition, operations on the tracking side only, and the
    release as the last operation. *)
Definition locked_section (l : list event) : Prop :=
  (∃ e, l = [existT lock_acquire (Exc e)])
  ∨ (∃ acquired mid released,
       l = existT lock_acquire (Ok acquired) :: mid ++ [existT lock_release released]
       ∧ Forall (λ o, is_tracking_op o = true) (ops mid)).

(** ** Creating, searching and copying

    [create_prompt], [search_prompts] and [copy_model_version] call three
    abstract methods more, with the arguments written here; [eprint] writes
    a line to the standard error. *)
Module Registry.

(** [PagedList(items, token)] *)
Record PagedList (A : Type) : Type := mkPagedList {
  items : list A;
  token : option string
}.
Arguments mkPagedList {A} items token.
Arguments items {A} p.
Arguments token {A} p.

(** The model version [copy_model_version] copies: a [ModelVersion] with the
    two attributes it reads besides, [run_id] and [run_link]. *)
Record SourceVersion : Type := mkSourceVersion {
  src_mv : ModelVersion;
  src_run_id : option string;
  src_run_link : option string
}.

Inductive rop : Type :=
| create_registered_model (name : string) (tags : option (list Tag))
    (description : option string)
| search_registered_models (filter_string : string) (max_results : Z)
    (order_by : option (list string)) (page_token : option string)
| create_model_version (name source : string) (run_id : option string)
    (tags : list Tag) (run_link : option string) (description : option string).

Definition rret (o : rop) : Type :=
  match o with
  | create_registered_model _ _ _ => RegisteredModel
  | search_registered_models _ _ _ _ => PagedList RegisteredModel
  | create_model_version _ _ _ _ _ _ => ModelVersion
  end.

(** A program over these operations; [Eprint msg k] prints [msg] and goes
    on with [k]. *)
Inductive rprog (A : Type) : Type :=
| RRet (a : A)
| RRaise (e : exn)
| RCall (o : rop) (k : result (rret o) → rprog A)
| Eprint (msg : string) (k : rprog A).
Arguments RRet {A} a.
Arguments RRaise {A} e.
Arguments RCall {A} o k.
Arguments Eprint {A} msg k.

Fixpoint rbind {A B : Type} (p : rprog A) (f : A → rprog B) : rprog B :=
  match p with
  | RRet a => f a
  | RRaise e => RRaise e
  | RCall o k => RCall o (λ r, rbind (k r) f)
  | Eprint msg k => Eprint msg (rbind k f)
  end.

#[export] Instance rprog_ret : MRet rprog := @RRet.
#[export] Instance rprog_bind : MBind rprog := λ A B f p, rbind p f.

Definition rcall (o : rop) : rprog (rret o) :=
  RCall o (λ r, match r with Ok x => RRet x | Exc e => RRaise e end).

Definition eprint (msg : string) : rprog unit := Eprint msg (RRet tt).

(** [try: p  except: handle e] *)
Fixpoint rtry_except {A : Type} (p : rprog A) (handle : exn → rprog A) : rprog A :=
  match p with
  | RRet a => RRet a
  | RRaise e => handle e
  | RCall o k => RCall o (λ r, rtry_except (k r) handle)
  | Eprint msg k => Eprint msg (rtry_except k handle)
  end.

Definition rhandler (W : Type) : Type := ∀ o : rop, W → result (rret o) * W.

(** What a run leaves behind: the calls with their answers, and the lines
    printed, in the order of the run. *)
Inductive revent : Type :=
| called (o : rop) (r : result (rret o))
| printed (msg : string).

Record routcome (W A : Type) : Type := mkROutcome {
  rres : result A;
  rfinal : W;
  rlog : list revent
}.
Arguments mkROutcome {W A} rres rfinal rlog.
Arguments rres {W A} r.
Arguments rfinal {W A} r.
Arguments rlog {W A} r.

Fixpoint rrun {W A : Type} (h : rhandler W) (p : rprog A) (w : W) : routcome W A :=
  match p with
  | RRet a => mkROutcome (Ok a) w []
  | RRaise e => mkROutcome (Exc e) w []
  | RCall o k =>
      let '(r, w') := h o w in
      let out := rrun h (k r) w' in
      mkROutcome (rres out) (rfinal out) (called o r :: rlog out)
  | Eprint msg k =>
      let out := rrun h k w in
      mkROutcome (rres out) (rfinal out) (printed msg :: rlog out)
  end.

(** The calls of a log, and its printed lines. *)
Definition calls (l : list revent) : list rop :=
  omap (λ ev, match ev with called o _ => Some o | printed _ => None end) l.

Definition lines (l : list revent) : list string :=
  omap (λ ev, match ev with printed msg => Some msg | called _ _ => None end) l.

Section RegistryMethods.
Context `{Runtime}.

(** [str(e)], what an f-string prints for a caught [MlflowException]; the
    class is not part of this file. *)
Context (exception_str : exn → string).

(** [tags or {}] and [if tags:] for an optional dict, given by its items. *)
Definition items_or_empty (tags : option (list (string * string)))
  : list (string * string) :=
  match tags with Some kvs => kvs | None => [] end.

(** Lines 528-530. *)
Definition prompt_tags (tags : option (list (string * string))) : list Tag :=
  [mkTag IS_PROMPT_TAG_KEY "true"] ++ (tag_of_item <$> items_or_empty tags).

(** Lines 507-541. *)
Definition create_prompt (name : string) (description : option string)
    (tags : option (list (string * string))) : rprog Prompt :=
  rm ← rcall (create_registered_model name (Some (prompt_tags tags)) description);
  RRet (mkPrompt (rm_name rm) (rm_description rm) (rm_creation_timestamp rm)
          (dict_of_tags (tag_of_item <$> items_or_empty tags))).

(** Lines 566-569: the filter that selects the prompts; an empty filter
    string counts as none. *)
Definition prompt_filter (filter_string : option string) : string :=
  let prompt_filter := "tags.`" +:+ IS_PROMPT_TAG_KEY +:+ "` = 'true'" in
  match filter_string with
  | Some (String c s) => prompt_filter +:+ " AND " +:+ String c s
  | Some EmptyString | None => prompt_filter
  end.

(** Lines 580-596, the body of the loop. *)
Definition prompt_info (rm : RegisteredModel) : Prompt :=
  let tags := tags_as_dict (rm_tags rm) in
  let tags := delete IS_PROMPT_TAG_KEY tags in
  mkPrompt (rm_name rm) (rm_description rm) (rm_creation_timestamp rm) tags.

(** Lines 543-602. *)
Definition search_prompts (filter_string : option string) (max_results : option Z)
    (order_by : option (list string)) (page_token : option string)
  : rprog (PagedList Prompt) :=
  let max_results := match max_results with None => 100 | Some n => n end in
  registered_models ← rcall (search_registered_models (prompt_filter filter_string)
                               max_results order_by page_token);
  RRet (mkPagedList (prompt_info <$> items registered_models)
          (token registered_models)).

Definition registered_message (name : string) : string :=
  "Successfully registered model '" +:+ name +:+ "'.".

Definition already_exists_message (dst_name : string) : string :=
  "Registered model '" +:+ dst_name +:+ "' already exists."
  +:+ " Creating a new version of this model...".

Definition copied_message (src_mv mv_copy : ModelVersion) : string :=
  "Copied version '" +:+ str_of_int (mv_version src_mv)
  +:+ "' of model '" +:+ mv_name src_mv
  +:+ "' to version '" +:+ str_of_int (mv_version mv_copy)
  +:+ "' of model '" +:+ mv_name mv_copy +:+ "'.".

Definition copy_failed_message (e : exn) : string :=
  "Failed to create model version copy. The current model registry backend "
  +:+ "may not yet support model version URI sources."
  +:+ String "010"%char "Error: " +:+ exception_str e.

(** [f"models:/{src_mv.name}/{src_mv.version}"] *)
Definition source_uri (src_mv : ModelVersion) : string :=
  "models:/" +:+ mv_name src_mv +:+ "/" +:+ str_of_int (mv_version src_mv).

(** [e.error_code != ErrorCode.Name(RESOURCE_ALREADY_EXISTS)] *)
Definition already_exists (e : exn) : bool :=
  match e with
  | MlflowException _ (Some RESOURCE_ALREADY_EXISTS) => true
  | _ => false
  end.

(** Lines 423-467.  The items of the tag dict come in the order of the
    keys. *)
Definition copy_model_version (src : SourceVersion) (dst_name : string)
  : rprog ModelVersion :=
  let src_mv := src_mv src in
  rtry_except
    (create_model_response ← rcall (create_registered_model dst_name None None);
     eprint (registered_message (rm_name create_model_response)))
    (λ e, if is_mlflow_exception e then
            if negb (already_exists e) then RRaise e
            else eprint (already_exists_message dst_name)
          else RRaise e);;
  rtry_except
    (mv_copy ← rcall (create_model_version dst_name (source_uri src_mv)
                        (src_run_id src)
                        (tag_of_item <$> map_to_list (mv_tags src_mv))
                        (src_run_link src)
                        (mv_description src_mv));
     eprint (copied_message src_mv mv_copy);;
     RRet mv_copy)
    (λ e, if is_mlflow_exception e
          then RRaise (MlflowException (copy_failed_message e) None)
          else RRaise e).
End RegistryMethods.
End Registry.

(** The registry of the backend above, for the three operations of
    [Registry]: a name is registered once, a search returns the registered
    models that carry the marker, in the order of their names and without
    paging, and a new version takes the next number. *)
Module RegistryBackend.
Import Registry Backend.

Definition with_models (w : world) (models : gmap string RegisteredModel) : world :=
  mkWorld (w_now w) models (w_versions w) (w_aliases w) (w_pending_polls w)
    (w_final_status w) (w_fault w) (w_traces w) (w_logged_models w) (w_runs w)
    (w_lock w).

Definition exists_already (name : string) : exn :=
  MlflowException ("Registered Model (name=" +:+ name +:+ ") already exists.")
    (Some RESOURCE_ALREADY_EXISTS).

Definition rhandle : rhandler world := λ o,
  match o return world → result (rret o) * world with
  | create_registered_model name tags description => λ w,
      match w_models w !! name with
      | Some _ => (Exc (exists_already name), w)
      | None =>
          let rm := mkRegisteredModel name description (Some (w_now w))
                      (TagList (default [] tags)) in
          (Ok rm, with_models w (<[name := rm]> (w_models w)))
      end
  | search_registered_models filter_string max_results order_by page_token => λ w,
      (Ok (mkPagedList
             (List.filter (λ rm, is_prompt (tags_as_dict (rm__tags rm)))
                (snd <$> map_to_list (w_models w)))
             None), w)
  | create_model_version name source run_id tags run_link description => λ w,
      match w_models w !! name with
      | None => (Exc (not_found "Registered model"), w)
      | Some _ =>
          let mv := mkModelVersion name (next_version w name) READY None
                      description (dict_of_tags tags) in
          (Ok mv, with_versions w (w_versions w ++ [mv]))
      end
  end.
End RegistryBackend.

(** ** Pickling the store

    The attributes of the store object, [self.__dict__], as a map from
    their names.  A lock is known by its identity: [threading.RLock()] makes
    a new one. *)
Module Pickle.

Inductive attribute : Type :=
| RLock (id : nat)
| Other (v : pyval).

(** Lines 53-68: the constructor sets the link lock; [new_lock] is the
    lock [threading.RLock()] returns. *)
Definition __init__ (self : gmap string attribute) (new_lock : nat)
  : gmap string attribute :=
  <["_prompt_link_lock"%string := RLock new_lock]> self.

(** Lines 70-75; [None] is the [KeyError] of [del]. *)
Definition __getstate__ (self : gmap string attribute)
  : option (gmap string attribute) :=
  let state := self in
  match state !! "_prompt_link_lock"%string with
  | Some _ => Some (delete "_prompt_link_lock"%string state)
  | None => None
  end.

(** Lines 77-81: [update] lets the items of [state] win. *)
Definition __setstate__ (self state : gmap string attribute) (new_lock : nat)
  : gmap string attribute :=
  <["_prompt_link_lock"%string := RLock new_lock]> (state ∪ self).
End Pickle.

(** * Theorems *)

Arguments entry_eq : simpl never.
Arguments entry_value : simpl never.

Lemma outcome_eta {W A : Type} (o : outcome W A) :
  mkOutcome (res o) (final o) (log o) = o.
Proof. by destruct o. Qed.

Lemma run_call {W : Type} (h : handler W) (o : op) (w : W) :
  run h (call o) w = mkOutcome (h o w).1 (h o w).2 [existT o (h o w).1].
Proof.
  unfold call. cbn [run]. destruct (h o w) as [r w']. by destruct r.
Qed.

Lemma run_bind {W A B : Type} (h : handler W) (p : prog A) (f : A → prog B) (w : W) :
  run h (bind p f) w = then_run h (run h p w) f.
Proof.
  revert w. induction p as [a | e | o k IH]; intros w; unfold then_run; cbn.
  - by rewrite outcome_eta.
  - done.
  - destruct (h o w) as [r w']. rewrite IH. unfold then_run.
    destruct (run h (k r) w') as [[a | e] w1 l1]; by cbn.
Qed.

Lemma run_mbind {W A B : Type} (h : handler W) (p : prog A) (f : A → prog B) (w : W) :
  run h (p ≫= f) w = then_run h (run h p w) f.
Proof. apply run_bind. Qed.

Lemma run_try_except {W A : Type} (h : handler W) (p : prog A)
    (handle : exn → prog A) (w : W) :
  run h (try_except p handle) w = else_run h (run h p w) handle.
Proof.
  revert w. induction p as [a | e | o k IH]; intros w; unfold else_run; cbn.
  - done.
  - by rewrite outcome_eta.
  - destruct (h o w) as [r w']. rewrite IH. unfold else_run.
    destruct (run h (k r) w') as [[a | e] w1 l1]; by cbn.
Qed.

Lemma run_try_finally {W A : Type} (h : handler W) (p : prog A) (q : prog unit) (w : W) :
  run h (try_finally p q) w = finally_run h (run h p w) q.
Proof.
  revert w. induction p as [a | e | o k IH]; intros w; unfold finally_run; cbn.
  - rewrite run_bind. unfold then_run.
    destruct (run h q w) as [[[] | e] w1 l1]; cbn; by rewrite ?app_nil_r.
  - rewrite run_bind. unfold then_run.
    destruct (run h q w) as [[[] | e'] w1 l1]; cbn; by rewrite ?app_nil_r.
  - destruct (h o w) as [r w']. by rewrite IH.
Qed.

Lemma run_with_lock {W A : Type} (h : handler W) (body : prog A) (w : W) :
  run h (with_prompt_link_lock body) w = locked_run h body (h lock_acquire w).
Proof.
  unfold with_prompt_link_lock, locked_run.
  rewrite run_bind.
  change (run h (call lock_acquire) w) with (@run W (ret lock_acquire) h (call lock_acquire) w).
  rewrite run_call. unfold then_run. cbn [res final log].
  destruct (h lock_acquire w) as [[[] | e] w0]; cbn [fst snd]; [| done].
  rewrite run_try_finally. unfold finally_run.
  change (run h (call lock_release) ?w') with (@run W (ret lock_release) h (call lock_release) w').
  rewrite run_call. cbn [res final log]. done.
Qed.

Lemma event_op (e1 e2 : event) : e1 = e2 → projT1 e1 = projT1 e2.
Proof. by intros ->. Qed.

Lemma event_answer (o : op) (r r' : result (ret o)) :
  existT o r = (existT o r' : event) → r = r'.
Proof. apply Eqdep_dec.inj_pair2_eq_dec. intros x y. destruct (decide (x = y)); auto. Qed.

Lemma run_lift {W A : Type} (h : handler W) (r : result A) (w : W) :
  run h (lift r) w = mkOutcome r w [].
Proof. by destruct r. Qed.

(** Push [run] through the combinators of a program. *)
Ltac run_steps :=
  repeat first
    [ rewrite run_try_except
    | rewrite run_try_finally
    | rewrite run_mbind
    | rewrite run_bind
    | rewrite run_lift
    | match goal with
      | |- context [@run ?W ?A ?h ?p ?w] =>
          lazymatch p with
          | call ?o =>
              change (@run W A h p w) with (@run W (ret o) h (call o) w);
              rewrite (run_call h o w)
          end
      end ].

Ltac run_simpl :=
  repeat first
    [ progress run_steps
    | rewrite run_with_lock
    | progress unfold then_run, else_run, finally_run, locked_run
    | progress cbn [res final log fst snd run]
    | progress cbn beta iota zeta ].

(** Case analysis on what a handler answers, on the test a program
    branches on, and on a result that decides how the run goes on. *)
Ltac handler_case :=
  match goal with
  | |- context [?h ?o ?w] =>
      lazymatch type of h with
      | handler _ =>
          let r := fresh "r" in
          let w' := fresh "w" in
          destruct (h o w) as [r w'] eqn:?; destruct r
      end
  end.

Ltac prog_case :=
  match goal with
  | |- context [run _ (match ?x with _ => _ end) _] => destruct x eqn:?
  end.

Ltac result_case :=
  match goal with
  | |- context [match ?x with Ok _ => _ | Exc _ => _ end] => destruct x eqn:?
  end.

Ltac run_cases :=
  repeat (run_simpl; first [prog_case | handler_case | result_case]); run_simpl.

(** Which event of a log a given event is. *)
Ltac event_inv H :=
  repeat
    match type of H with
    | _ ∈ _ :: _ => apply elem_of_cons in H as [H | H]
    | _ ∈ [] => by apply elem_of_nil in H
    | _ ∈ _ ++ _ => apply elem_of_app in H as [H | H]
    | existT _ _ = existT _ _ =>
        let Ho := fresh "Ho" in
        pose proof (event_op _ _ H) as Ho; cbn in Ho;
        first
          [ discriminate Ho
          | try (injection Ho as ?; subst); try clear Ho;
            apply event_answer in H; simplify_eq ]
    end.

Ltac no_write := solve [unfold no_link_write, ops; cbn; repeat constructor].

Lemma delete_dict_of_tags (k : string) (l : list Tag) (d : gmap string string) :
  foldl (λ d tag, <[key tag := value tag]> d) (delete k d)
        (filter (λ tag, key tag ≠ k) l)
  = delete k (foldl (λ d tag, <[key tag := value tag]> d) d l).
Proof.
  revert d. induction l as [| tag l IH]; intros d; [done |].
  destruct (decide (key tag = k)) as [Hk | Hk].
  - rewrite filter_cons_False by (intros Hn; by apply Hn).
    cbn [foldl]. rewrite <- IH. f_equal. subst k.
    apply map_eq. intros i. destruct (decide (i = key tag)) as [-> | Hi].
    + by rewrite !lookup_delete_eq.
    + by rewrite !lookup_delete_ne, lookup_insert_ne.
  - rewrite filter_cons_True by done. cbn [foldl].
    rewrite <- IH. f_equal.
    apply map_eq. intros i. destruct (decide (i = k)) as [-> | Hi].
    + by rewrite lookup_insert_ne, !lookup_delete_eq.
    + rewrite lookup_delete_ne by done.
      destruct (decide (i = key tag)) as [-> | Hi'].
      * by rewrite !lookup_insert_eq.
      * by rewrite !lookup_insert_ne, lookup_delete_ne.
Qed.

Section Claims.
Context `{Runtime}.

(** The user-visible tags of a registered model, as a dict, are its tag map
    without the marker. *)
Lemma user_tags_minus_marker (rm : RegisteredModel) :
  tags_as_dict (rm_tags rm) = delete IS_PROMPT_TAG_KEY (tags_as_dict (rm__tags rm)).
Proof.
  unfold rm_tags. destruct (rm__tags rm) as [d | l]; cbn; [done |].
  unfold dict_of_tags. by rewrite <- delete_dict_of_tags.
Qed.

(** C2. [get_prompt]: when the store returns a registered model whose tag
    map holds the reserved marker with the value "true", the result is the
    prompt with the model's name, description and creation time, and with
    the model's tag map minus the marker as its tags; when the marker is
    absent or has another value, the result is [None], not an error. *)
Theorem get_prompt_projection {W : Type} (h : handler W) (w w' : W) (name : string)
    (rm : RegisteredModel) :
  h (get_registered_model name) w = (Ok rm, w') →
  let tags := tags_as_dict (rm__tags rm) in
  (tags !! IS_PROMPT_TAG_KEY = Some "true"%string →
   res (run h (get_prompt name) w)
   = Ok (Some (mkPrompt (rm_name rm) (rm_description rm) (rm_creation_timestamp rm)
                 (delete IS_PROMPT_TAG_KEY tags))))
  ∧ (tags !! IS_PROMPT_TAG_KEY ≠ Some "true"%string →
     res (run h (get_prompt name) w) = Ok None).
Proof.
  intros Hget tags. unfold get_prompt.
  run_steps. rewrite Hget.
  unfold then_run, else_run, is_prompt. cbn. fold tags. split; intros Htag.
  - rewrite bool_decide_eq_true_2 by done. cbn.
    by rewrite user_tags_minus_marker.
  - by rewrite bool_decide_eq_false_2 by done.
Qed.

(** [get_prompt] never raises: what the store raises becomes [None]. *)
Lemma get_prompt_no_error {W : Type} (h : handler W) (w : W) (name : string) :
  ∃ r, res (run h (get_prompt name) w) = Ok r.
Proof.
  unfold get_prompt.
  run_steps.
  destruct (h (get_registered_model name) w) as [[rm | e] w']; unfold then_run, else_run; cbn.
  - destruct (negb _); cbn; eauto.
  - eauto.
Qed.

(** *** The merge of link entries *)

Lemma entry_eq_value (e e' : link_entry) :
  entry_eq e (entry_value e') = true ↔ e = e'.
Proof.
  destruct e as [n v], e' as [n' v']. unfold entry_eq, entry_value. cbn.
  rewrite andb_true_iff, !String.eqb_eq. split.
  - by intros [-> ->].
  - intros [= -> ->]. done.
Qed.

Lemma entry_in_app (e : link_entry) (l1 l2 : list pyval) :
  entry_in e (l1 ++ l2) = entry_in e l1 || entry_in e l2.
Proof. apply existsb_app. Qed.

Lemma entry_in_values (e : link_entry) (l : list link_entry) :
  entry_in e (entry_value <$> l) = true ↔ e ∈ l.
Proof.
  unfold entry_in. rewrite existsb_exists. split.
  - intros (v & Hv & He). apply in_map_iff in Hv as (e' & <- & He').
    apply entry_eq_value in He as ->. by apply list_elem_of_In.
  - intros He. exists (entry_value e). split.
    + apply in_map_iff. exists e. split; [done |]. by apply list_elem_of_In.
    + by apply entry_eq_value.
Qed.

Lemma filter_absent (e : link_entry) (l : list pyval) :
  entry_in e l = false → List.filter (entry_eq e) l = [].
Proof.
  induction l as [| v l IH]; cbn; [done |].
  intros [Hv Hl]%orb_false_iff. rewrite Hv. by apply IH.
Qed.

Lemma filter_values_NoDup (e : link_entry) (l : list link_entry) :
  NoDup l → (length (List.filter (entry_eq e) (entry_value <$> l)) ≤ 1)%nat.
Proof.
  induction 1 as [| e' l Hnotin Hnodup IH]; cbn; [lia |].
  destruct (entry_eq e (entry_value e')) eqn:Heq; [| done].
  apply entry_eq_value in Heq as ->.
  rewrite filter_absent; [cbn; lia |].
  destruct (entry_in e' (entry_value <$> l)) eqn:Hin; [| done].
  by apply entry_in_values in Hin.
Qed.

Lemma merge_entries_cons (parsed : list pyval) (e : link_entry) (new : list link_entry) :
  merge_entries parsed (e :: new)
  = merge_entries (if entry_in e parsed then parsed else parsed ++ [entry_value e]) new.
Proof. reflexivity. Qed.

(** The loop appends the first occurrences of the new entries that the list
    does not hold, in input order. *)
Lemma merge_entries_appends (parsed : list pyval) (new : list link_entry) :
  ∃ appended : list link_entry,
    merge_entries parsed new = parsed ++ (entry_value <$> appended)
    ∧ sublist appended new
    ∧ NoDup appended
    ∧ ∀ e, e ∈ appended ↔ e ∈ new ∧ entry_in e parsed = false.
Proof.
  revert parsed. induction new as [| e new IH]; intros parsed.
  - exists []. split_and!; [by rewrite app_nil_r | constructor | constructor |].
    intros e. split; [by intros ?%elem_of_nil | by intros [?%elem_of_nil _]].
  - rewrite merge_entries_cons. destruct (entry_in e parsed) eqn:Hin.
    + destruct (IH parsed) as (appended & Heq & Hsub & Hnodup & Hmem).
      exists appended. split_and!; [done | by apply sublist_cons | done |].
      intros e0. rewrite Hmem, elem_of_cons. split.
      * intros [? ?]. by split; [right |].
      * intros [[-> | ?] Hout]; [congruence | done].
    + destruct (IH (parsed ++ [entry_value e])) as (appended & Heq & Hsub & Hnodup & Hmem).
      assert (Hself : entry_in e [entry_value e] = true).
      { cbn. rewrite orb_false_r. by apply entry_eq_value. }
      exists (e :: appended). split_and!.
      * by rewrite Heq, <- app_assoc.
      * by apply sublist_skip.
      * constructor; [| done]. intros [_ Hout]%Hmem.
        rewrite entry_in_app, Hself, orb_true_r in Hout. done.
      * intros e0. rewrite !elem_of_cons, Hmem, entry_in_app. cbn.
        rewrite orb_false_r. split.
        -- intros [-> | [? [Hout _]%orb_false_iff]]; split; auto.
        -- intros [He0 Hout]. destruct (decide (e0 = e)) as [-> | Hne]; [by left |].
           right. destruct He0 as [? | ?]; [done |]. split; [done |].
           rewrite Hout. cbn.
           destruct (entry_eq e0 (entry_value e)) eqn:Heq0; [| done].
           by apply entry_eq_value in Heq0.
Qed.

Lemma no_duplicate_pairs_app (parsed : list pyval) (appended : list link_entry) :
  NoDup appended →
  (∀ e, e ∈ appended → entry_in e parsed = false) →
  no_duplicate_pairs parsed →
  no_duplicate_pairs (parsed ++ (entry_value <$> appended)).
Proof.
  intros Hnodup Hfresh Hparsed e. rewrite List.filter_app, length_app.
  destruct (entry_in e parsed) eqn:Hin.
  - assert (Hout : entry_in e (entry_value <$> appended) = false).
    { destruct (entry_in e (entry_value <$> appended)) eqn:Hin'; [| done].
      apply entry_in_values, Hfresh in Hin'. congruence. }
    rewrite (filter_absent _ _ Hout). cbn. specialize (Hparsed e). lia.
  - rewrite (filter_absent _ _ Hin). cbn. by apply filter_values_NoDup.
Qed.

(** C3. [_update_linked_prompts_tag] on a tag value that parses as a JSON
    array: the new value is the serialization of the parsed array followed
    by the appended entries, so every existing element keeps its place; the
    appended entries are new entries in input order, each once, and are
    exactly the new entries the array did not hold; an array without a
    duplicate pair stays so; every appended entry is a dict of two strings,
    the version being [str(prompt_version.version)] for the entries the
    link methods build. *)
Theorem link_merge_invariant (current : string) (parsed : list pyval)
    (new : list link_entry) :
  json_loads current = Some (PList parsed) →
  ∃ appended : list link_entry,
    _update_linked_prompts_tag (Some current) new
    = Ok (json_dumps (PList (parsed ++ (entry_value <$> appended))))
    ∧ sublist appended new
    ∧ NoDup appended
    ∧ (∀ e, e ∈ appended ↔ e ∈ new ∧ entry_in e parsed = false)
    ∧ (no_duplicate_pairs parsed
       → no_duplicate_pairs (parsed ++ (entry_value <$> appended)))
    ∧ (∀ e, e ∈ appended →
       entry_value e
       = PDict [("name"%string, PStr (entry_name e));
                ("version"%string, PStr (entry_version e))])
    ∧ (∀ prompt_versions, new = entry_of <$> prompt_versions →
       ∀ e, e ∈ appended →
       ∃ pv, pv ∈ prompt_versions
             ∧ entry_name e = pv_name pv
             ∧ entry_version e = str_of_int (pv_version pv)).
Proof.
  intros Hparse.
  destruct (merge_entries_appends parsed new) as (appended & Heq & Hsub & Hnodup & Hmem).
  exists appended. split_and!; try done.
  - unfold _update_linked_prompts_tag, parse_linked_prompts.
    by rewrite Hparse, Heq.
  - intros Hparsed. apply no_duplicate_pairs_app; [done | | done].
    intros e He. by apply Hmem in He as [_ ?].
  - intros pvs -> e He. apply Hmem in He as [He _].
    apply list_elem_of_fmap in He as (pv & -> & Hpv). by exists pv.
Qed.

(** *** A malformed tag *)

Lemma update_malformed (s : string) (new : list link_entry) :
  malformed_tag s →
  _update_linked_prompts_tag (Some s) new
  = Exc (MlflowException (invalid_json_message s) None)
  ∨ _update_linked_prompts_tag (Some s) new
    = Exc (MlflowException (invalid_format_message s) None).
Proof.
  intros Hbad. unfold _update_linked_prompts_tag, parse_linked_prompts.
  destruct (json_loads s) as [[] |] eqn:Hs; auto.
  by destruct (Hbad l).
Qed.

Lemma update_malformed_not_ok (s updated : string) (new : list link_entry) :
  malformed_tag s → _update_linked_prompts_tag (Some s) new ≠ Ok updated.
Proof. intros Hbad. destruct (update_malformed s new Hbad) as [-> | ->]; done. Qed.

Lemma get_prompt_version_reads {W : Type} (h : handler W) (w : W) (name : string)
    (version : version_arg) :
  Forall (λ o, is_registry_read o = true)
    (ops (log (run h (get_prompt_version name version) w))).
Proof.
  unfold get_prompt_version. run_cases.
  all: cbn; repeat constructor.
Qed.

Lemma malformed_trace {W : Type} (h : handler W) (w : W) (s : string)
    (prompt_versions : list PromptVersion) (trace_id : string) (ti : TraceInfo) :
  malformed_tag s →
  let out := run h (link_prompts_to_trace prompt_versions trace_id) w in
  (existT (get_trace_info trace_id) (Ok (Some ti)) : event) ∈ log out →
  ti_tags ti !! LINKED_PROMPTS_TAG_KEY = Some s →
  (∃ e, res out = Exc e) ∧ no_link_write (log out).
Proof.
  intros Hbad out. subst out. unfold link_prompts_to_trace.
  run_cases; intros Hin Htag; event_inv Hin.
  all: try (rewrite Htag in *; by edestruct update_malformed_not_ok).
  all: split; [eauto | no_write].
Qed.

Lemma registry_read_event (l : list event) (ev : event) :
  Forall (λ o, is_registry_read o = true) (ops l) →
  ev ∈ l → is_registry_read (projT1 ev) = true.
Proof.
  intros Hreads Hin. rewrite Forall_forall in Hreads. apply Hreads.
  unfold ops. apply list_elem_of_fmap. by exists ev.
Qed.

Lemma registry_reads_no_write (l : list event) :
  Forall (λ o, is_registry_read o = true) (ops l) → no_link_write l.
Proof.
  unfold no_link_write. intros Hreads. eapply Forall_impl; [exact Hreads |].
  by intros [].
Qed.

Lemma no_link_write_app (l1 l2 : list event) :
  no_link_write (l1 ++ l2) ↔ no_link_write l1 ∧ no_link_write l2.
Proof. unfold no_link_write, ops. rewrite fmap_app. apply Forall_app. Qed.

(** Set the run of [get_prompt_version] apart from what follows it: its
    log holds reads of the registry only. *)
Ltac split_prefix name version :=
  rewrite run_mbind;
  match goal with
  | |- context [run ?h (get_prompt_version name version) ?w] =>
      let Hreads := fresh "Hreads" in
      pose proof (get_prompt_version_reads h w name version) as Hreads;
      destruct (run h (get_prompt_version name version) w) as [[? | ?] ? ?];
      unfold then_run; cbn [res final log] in *
  end.

Lemma malformed_model {W : Type} (h : handler W) (w : W) (s : string)
    (name version model_id : string) (lm : LoggedModel) :
  malformed_tag s →
  let out := run h (link_prompt_version_to_model name version model_id) w in
  (existT (get_logged_model model_id) (Ok (Some lm)) : event) ∈ log out →
  lm_tags lm !! LINKED_PROMPTS_TAG_KEY = Some s →
  (∃ e, res out = Exc e) ∧ no_link_write (log out).
Proof.
  intros Hbad out. subst out. unfold link_prompt_version_to_model.
  split_prefix name (VStr version).
  - unfold new_prompt_entry.
    run_cases; intros Hin Htag; rewrite no_link_write_app.
    all: apply elem_of_app in Hin as [Hin | Hin];
      [by apply (registry_read_event _ _ Hreads) in Hin |].
    all: event_inv Hin.
    all: try (rewrite Htag in *; by edestruct update_malformed_not_ok).
    all: split; [eauto | split; [by apply registry_reads_no_write | no_write]].
  - intros Hin. by apply (registry_read_event _ _ Hreads) in Hin.
Qed.

Lemma malformed_run {W : Type} (h : handler W) (w : W) (s : string)
    (name version run_id : string) (r : Run) :
  malformed_tag s →
  let out := run h (link_prompt_version_to_run name version run_id) w in
  (existT (get_run run_id) (Ok (Some r)) : event) ∈ log out →
  run_linked_prompts r = Some s →
  (∃ e, res out = Exc e) ∧ no_link_write (log out).
Proof.
  intros Hbad out. subst out. unfold link_prompt_version_to_run.
  split_prefix name (VStr version).
  - unfold new_prompt_entry.
    run_cases; intros Hin Htag; rewrite no_link_write_app.
    all: apply elem_of_app in Hin as [Hin | Hin];
      [by apply (registry_read_event _ _ Hreads) in Hin |].
    all: event_inv Hin.
    all: try (rewrite Htag in *; by edestruct update_malformed_not_ok).
    all: split; [eauto | split; [by apply registry_reads_no_write | no_write]].
  - intros Hin. by apply (registry_read_event _ _ Hreads) in Hin.
Qed.

(** C6. A link operation that reads a target whose linked-prompts tag is
    present but is not valid JSON, or is JSON but not an array, ends with an
    error and performs no write of a tag, whatever the handler answers:
    for [link_prompts_to_trace], [link_prompt_version_to_model] and
    [link_prompt_version_to_run]. *)
Theorem malformed_tag_fails_without_write {W : Type} (h : handler W) (w : W)
    (s : string) :
  malformed_tag s →
  (∀ prompt_versions trace_id ti,
     let out := run h (link_prompts_to_trace prompt_versions trace_id) w in
     (existT (get_trace_info trace_id) (Ok (Some ti)) : event) ∈ log out →
     ti_tags ti !! LINKED_PROMPTS_TAG_KEY = Some s →
     (∃ e, res out = Exc e) ∧ no_link_write (log out))
  ∧ (∀ name version model_id lm,
       let out := run h (link_prompt_version_to_model name version model_id) w in
       (existT (get_logged_model model_id) (Ok (Some lm)) : event) ∈ log out →
       lm_tags lm !! LINKED_PROMPTS_TAG_KEY = Some s →
       (∃ e, res out = Exc e) ∧ no_link_write (log out))
  ∧ (∀ name version run_id r,
       let out := run h (link_prompt_version_to_run name version run_id) w in
       (existT (get_run run_id) (Ok (Some r)) : event) ∈ log out →
       run_linked_prompts r = Some s →
       (∃ e, res out = Exc e) ∧ no_link_write (log out)).
Proof.
  intros Hbad. split_and!; intros.
  - by eapply malformed_trace.
  - by eapply malformed_model.
  - by eapply malformed_run.
Qed.

(** *** Linking what is already linked *)

Lemma merge_entries_present (parsed : list pyval) (new : list link_entry) :
  (∀ e, e ∈ new → entry_in e parsed = true) → merge_entries parsed new = parsed.
Proof.
  intros Hall.
  destruct (merge_entries_appends parsed new) as (appended & -> & _ & _ & Hmem).
  destruct appended as [| e appended]; [by rewrite app_nil_r |].
  assert (He : e ∈ e :: appended) by left.
  apply Hmem in He as [He Hout]. apply Hall in He. congruence.
Qed.

Lemma update_present (s : string) (parsed : list pyval) (new : list link_entry) :
  json_loads s = Some (PList parsed) →
  (∀ e, e ∈ new → entry_in e parsed = true) →
  _update_linked_prompts_tag (Some s) new = Ok (json_dumps (PList parsed)).
Proof.
  intros Hparse Hall. unfold _update_linked_prompts_tag, parse_linked_prompts.
  by rewrite Hparse, merge_entries_present.
Qed.

Lemma idempotent_trace {W : Type} (h : handler W) (w : W) (s : string)
    (parsed : list pyval) (prompt_versions : list PromptVersion) (trace_id : string)
    (ti : TraceInfo) :
  let out := run h (link_prompts_to_trace prompt_versions trace_id) w in
  (existT (get_trace_info trace_id) (Ok (Some ti)) : event) ∈ log out →
  ti_tags ti !! LINKED_PROMPTS_TAG_KEY = Some s →
  json_loads s = Some (PList parsed) →
  (∀ pv, pv ∈ prompt_versions → entry_in (entry_of pv) parsed = true) →
  (json_dumps (PList parsed) = s → no_link_write (log out))
  ∧ (∀ o, o ∈ ops (log out) → is_link_write o = true →
     o = set_trace_tag trace_id LINKED_PROMPTS_TAG_KEY (json_dumps (PList parsed))).
Proof.
  intros out Hin Htag Hparse Hall.
  assert (Hupd : _update_linked_prompts_tag (Some s) (entry_of <$> prompt_versions)
                 = Ok (json_dumps (PList parsed))).
  { apply update_present; [done |]. intros e (pv & -> & Hpv)%list_elem_of_fmap. auto. }
  subst out. revert Hin. unfold link_prompts_to_trace.
  run_cases; intros Hin; event_inv Hin.
  all: rewrite Htag in *; simplify_eq.
  all: try (rewrite Hupd in *; simplify_eq).
  all: split;
    [ intros Hs; first [ no_write | apply bool_decide_eq_true in Heqb; congruence ]
    | intros o Ho Hw; unfold ops in Ho; cbn in Ho;
      repeat (apply elem_of_cons in Ho as [-> | Ho]); try done;
      by apply elem_of_nil in Ho ].
Qed.

(** The third conjunct of the lemmas below: a write among the operations of
    a log that is known event by event. *)
Ltac only_write Hreads :=
  let o := fresh "o" in
  let Ho := fresh "Ho" in
  let Hw := fresh "Hw" in
  intros o Ho Hw; unfold ops in Ho; rewrite ?fmap_app in Ho;
  try (apply elem_of_app in Ho as [Ho | Ho];
       [ rewrite Forall_forall in Hreads; apply Hreads in Ho;
         by destruct o
       | ]);
  cbn in Ho;
  repeat (apply elem_of_cons in Ho as [-> | Ho]); try done;
  by apply elem_of_nil in Ho.

Lemma idempotent_model {W : Type} (h : handler W) (w : W) (s : string)
    (parsed : list pyval) (name version model_id : string) (lm : LoggedModel)
    (pv : PromptVersion) :
  let out := run h (link_prompt_version_to_model name version model_id) w in
  res (run h (get_prompt_version name (VStr version)) w) = Ok (Some pv) →
  (existT (get_logged_model model_id) (Ok (Some lm)) : event) ∈ log out →
  lm_tags lm !! LINKED_PROMPTS_TAG_KEY = Some s →
  json_loads s = Some (PList parsed) →
  entry_in (entry_of pv) parsed = true →
  (json_dumps (PList parsed) = s → no_link_write (log out))
  ∧ (∀ o, o ∈ ops (log out) → is_link_write o = true →
     o = set_logged_model_tags model_id
           [mkTag LINKED_PROMPTS_TAG_KEY (json_dumps (PList parsed))]).
Proof.
  intros out. subst out. unfold link_prompt_version_to_model.
  split_prefix name (VStr version); [| done].
  intros [= ->] Hin Htag Hparse Hpresent.
  assert (Hupd : _update_linked_prompts_tag (Some s) [entry_of pv]
                 = Ok (json_dumps (PList parsed))).
  { apply update_present; [done |]. by intros e ->%list_elem_of_singleton. }
  revert Hin. unfold new_prompt_entry.
  run_cases; intros Hin.
  all: apply elem_of_app in Hin as [Hin | Hin];
    [by apply (registry_read_event _ _ Hreads) in Hin |].
  all: event_inv Hin.
  all: rewrite Htag in *; simplify_eq.
  all: try (rewrite Hupd in *; simplify_eq).
  all: split;
    [ intros Hs; rewrite no_link_write_app;
      split; [by apply registry_reads_no_write |];
      first [ no_write | apply bool_decide_eq_true in Heqb; congruence ]
    | only_write Hreads ].
Qed.

Lemma idempotent_run {W : Type} (h : handler W) (w : W) (s : string)
    (parsed : list pyval) (name version run_id : string) (r : Run)
    (pv : PromptVersion) :
  let out := run h (link_prompt_version_to_run name version run_id) w in
  res (run h (get_prompt_version name (VStr version)) w) = Ok (Some pv) →
  (existT (get_run run_id) (Ok (Some r)) : event) ∈ log out →
  run_linked_prompts r = Some s →
  json_loads s = Some (PList parsed) →
  entry_in (entry_of pv) parsed = true →
  (json_dumps (PList parsed) = s → no_link_write (log out))
  ∧ (∀ o, o ∈ ops (log out) → is_link_write o = true →
     o = set_tag run_id (mkTag LINKED_PROMPTS_TAG_KEY (json_dumps (PList parsed)))).
Proof.
  intros out. subst out. unfold link_prompt_version_to_run.
  split_prefix name (VStr version); [| done].
  intros [= ->] Hin Htag Hparse Hpresent.
  assert (Hupd : _update_linked_prompts_tag (Some s) [entry_of pv]
                 = Ok (json_dumps (PList parsed))).
  { apply update_present; [done |]. by intros e ->%list_elem_of_singleton. }
  revert Hin. unfold new_prompt_entry.
  run_cases; intros Hin.
  all: apply elem_of_app in Hin as [Hin | Hin];
    [by apply (registry_read_event _ _ Hreads) in Hin |].
  all: event_inv Hin.
  all: rewrite Htag in *; simplify_eq.
  all: try (rewrite Hupd in *; simplify_eq).
  all: split;
    [ intros Hs; rewrite no_link_write_app;
      split; [by apply registry_reads_no_write |];
      first [ no_write | apply bool_decide_eq_true in Heqb; congruence ]
    | only_write Hreads ].
Qed.

(** C1. Linking what is already linked.  When the tag the target holds
    parses as the array [parsed] and every entry being linked equals an
    element of it, the merged array is [parsed] itself, the run writes no
    tag when the serialization of the merged array equals the current tag
    value, and a write, if one is made, writes that serialization: for
    [link_prompts_to_trace], [link_prompt_version_to_model] and
    [link_prompt_version_to_run]. *)
Theorem linking_again_is_idempotent {W : Type} (h : handler W) (w : W) (s : string)
    (parsed : list pyval) :
  json_loads s = Some (PList parsed) →
  (∀ prompt_versions trace_id ti,
     (∀ pv, pv ∈ prompt_versions → entry_in (entry_of pv) parsed = true) →
     let out := run h (link_prompts_to_trace prompt_versions trace_id) w in
     (existT (get_trace_info trace_id) (Ok (Some ti)) : event) ∈ log out →
     ti_tags ti !! LINKED_PROMPTS_TAG_KEY = Some s →
     _update_linked_prompts_tag (Some s) (entry_of <$> prompt_versions)
     = Ok (json_dumps (PList parsed))
     ∧ (json_dumps (PList parsed) = s → no_link_write (log out))
     ∧ (∀ o, o ∈ ops (log out) → is_link_write o = true →
        o = set_trace_tag trace_id LINKED_PROMPTS_TAG_KEY (json_dumps (PList parsed))))
  ∧ (∀ name version model_id lm pv,
       entry_in (entry_of pv) parsed = true →
       let out := run h (link_prompt_version_to_model name version model_id) w in
       res (run h (get_prompt_version name (VStr version)) w) = Ok (Some pv) →
       (existT (get_logged_model model_id) (Ok (Some lm)) : event) ∈ log out →
       lm_tags lm !! LINKED_PROMPTS_TAG_KEY = Some s →
       _update_linked_prompts_tag (Some s) [entry_of pv]
       = Ok (json_dumps (PList parsed))
       ∧ (json_dumps (PList parsed) = s → no_link_write (log out))
       ∧ (∀ o, o ∈ ops (log out) → is_link_write o = true →
          o = set_logged_model_tags model_id
                [mkTag LINKED_PROMPTS_TAG_KEY (json_dumps (PList parsed))]))
  ∧ (∀ name version run_id r pv,
       entry_in (entry_of pv) parsed = true →
       let out := run h (link_prompt_version_to_run name version run_id) w in
       res (run h (get_prompt_version name (VStr version)) w) = Ok (Some pv) →
       (existT (get_run run_id) (Ok (Some r)) : event) ∈ log out →
       run_linked_prompts r = Some s →
       _update_linked_prompts_tag (Some s) [entry_of pv]
       = Ok (json_dumps (PList parsed))
       ∧ (json_dumps (PList parsed) = s → no_link_write (log out))
       ∧ (∀ o, o ∈ ops (log out) → is_link_write o = true →
          o = set_tag run_id
                (mkTag LINKED_PROMPTS_TAG_KEY (json_dumps (PList parsed))))).
Proof.
  intros Hparse. split_and!.
  - intros pvs tid ti Hall out Hin Htag. split.
    + apply update_present; [done |].
      intros e (pv & -> & Hpv)%list_elem_of_fmap. auto.
    + by eapply idempotent_trace.
  - intros name version mid lm pv Hpresent out Hpv Hin Htag. split.
    + apply update_present; [done |]. by intros e ->%list_elem_of_singleton.
    + by eapply idempotent_model.
  - intros name version rid r pv Hpresent out Hpv Hin Htag. split.
    + apply update_present; [done |]. by intros e ->%list_elem_of_singleton.
    + by eapply idempotent_run.
Qed.

(** *** The tags of a new prompt version *)

(** C8, as amended.  [create_prompt_version] first creates a model version
    with the source "prompt-template" and with these tags, in this order:
    the marker with the value "true"; the text tag and the kind tag, holding
    the template verbatim and "text" for a string template, or its JSON
    serialization and "chat" for a structured one; the response-format tag
    with the JSON serialization of the schema when the response format is a
    model class or a dict with at least one item (nothing for [None] or for
    an empty dict); the caller's tags.  The only other operation is the read
    of the registered model that follows. *)
Theorem created_version_tags {W : Type} (h : handler W) (w : W) (name : string)
    (tpl : template) (description : option string)
    (tags : option (list (string * string))) (rf : option response_format) :
  ∃ rest : list op,
    ops (log (run h (create_prompt_version name tpl description tags rf) w))
    = create_model_version name "prompt-template"
        ([mkTag IS_PROMPT_TAG_KEY "true"]
         ++ match tpl with
            | TText s =>
                [mkTag PROMPT_TEXT_TAG_KEY s; mkTag PROMPT_TYPE_TAG_KEY "text"]
            | TChat messages =>
                [mkTag PROMPT_TEXT_TAG_KEY (json_dumps messages);
                 mkTag PROMPT_TYPE_TAG_KEY "chat"]
            end
         ++ match rf with
            | Some (RFModel class_name) =>
                [mkTag RESPONSE_FORMAT_TAG_KEY
                   (json_dumps (convert_response_format_to_dict (RFModel class_name)))]
            | Some (RFDict (item :: d)) =>
                [mkTag RESPONSE_FORMAT_TAG_KEY
                   (json_dumps (convert_response_format_to_dict (RFDict (item :: d))))]
            | Some (RFDict []) | None => []
            end
         ++ match tags with
            | Some items => (λ kv, mkTag kv.1 kv.2) <$> items
            | None => []
            end)
        description
      :: rest
    ∧ (rest = [] ∨ rest = [get_registered_model name]).
Proof.
  assert (Htags : version_tags tpl tags rf
    = [mkTag IS_PROMPT_TAG_KEY "true"]
      ++ match tpl with
         | TText s =>
             [mkTag PROMPT_TEXT_TAG_KEY s; mkTag PROMPT_TYPE_TAG_KEY "text"]
         | TChat messages =>
             [mkTag PROMPT_TEXT_TAG_KEY (json_dumps messages);
              mkTag PROMPT_TYPE_TAG_KEY "chat"]
         end
      ++ match rf with
         | Some (RFModel class_name) =>
             [mkTag RESPONSE_FORMAT_TAG_KEY
                (json_dumps (convert_response_format_to_dict (RFModel class_name)))]
         | Some (RFDict (item :: d)) =>
             [mkTag RESPONSE_FORMAT_TAG_KEY
                (json_dumps (convert_response_format_to_dict (RFDict (item :: d))))]
         | Some (RFDict []) | None => []
         end
      ++ match tags with
         | Some items => (λ kv, mkTag kv.1 kv.2) <$> items
         | None => []
         end).
  { unfold version_tags. by destruct rf as [[c | [| item d]] |]. }
  rewrite <- Htags. clear Htags. unfold create_prompt_version.
  generalize (version_tags tpl tags rf). intros created.
  run_cases; cbn; eauto.
Qed.

(** *** The outcomes of [get_prompt_version] *)

(** C5, as amended.  [get_prompt_version name version], whatever the
    handler answers:
    - when the registered model's tag map lacks the marker with the value
      "true", the call raises the "registered as a model, not a prompt"
      error;
    - otherwise, when [int(str(version))] gives [n] the version is read by
      its number [n], and the alias lookup follows exactly when that read
      raised a [ValueError] or a [TypeError]; when [int(str(version))] fails
      the alias lookup is the only read of a version;
    - when the last read returned a version whose tags lack the marker, the
      result is [None];
    - when the last operation raised an exception that is not an
      [MlflowException], the result is [None]; an [MlflowException] it
      raised is raised. *)
Theorem get_prompt_version_outcomes {W : Type} (h : handler W) (w : W)
    (name : string) (version : version_arg) :
  let out := run h (get_prompt_version name version) w in
  let alias := get_model_version_by_alias name (py_str version) in
  (∀ rm, (existT (get_registered_model name) (Ok rm) : event) ∈ log out →
     tags_as_dict (rm__tags rm) !! IS_PROMPT_TAG_KEY ≠ Some "true"%string →
     res out = Exc (MlflowException (not_a_prompt_message name)
                      (Some INVALID_PARAMETER_VALUE)))
  ∧ (∀ rm, (existT (get_registered_model name) (Ok rm) : event) ∈ log out →
       tags_as_dict (rm__tags rm) !! IS_PROMPT_TAG_KEY = Some "true"%string →
       (∀ n, PyInt.of_str (py_str version) = Some n →
          ∃ r, log out !! 1%nat = Some (existT (get_model_version name n) r)
               ∧ match r with
                 | Exc e =>
                     if is_value_or_type_error e
                     then ∃ r', log out !! 2%nat = Some (existT alias r')
                     else length (log out) = 2%nat
                 | Ok _ => length (log out) = 2%nat
                 end)
       ∧ (PyInt.of_str (py_str version) = None →
          ∃ r', log out !! 1%nat = Some (existT alias r')
                ∧ length (log out) = 2%nat))
  ∧ (∀ n mv, last (log out) = Some (existT (get_model_version name n) (Ok mv)) →
       has_prompt_tag (mv_tags mv) = false → res out = Ok None)
  ∧ (∀ mv, last (log out) = Some (existT alias (Ok mv)) →
       has_prompt_tag (mv_tags mv) = false → res out = Ok None)
  ∧ (∀ o e, last (log out) = Some (existT o (Exc e)) →
       res out = if is_mlflow_exception e then Exc e else Ok None).
Proof.
  intros out alias. subst out alias. unfold get_prompt_version. split_and!.
  - intros rm. run_cases; intros Hin Htag; event_inv Hin.
    all: try done.
    all: unfold is_prompt in *.
    all: by rewrite bool_decide_eq_false_2 in * by done.
  - intros rm. run_cases; intros Hin Htag; event_inv Hin.
    all: try (unfold is_prompt in *; rewrite bool_decide_eq_true_2 in * by done; done).
    all: split;
      [ intros n Hn; simplify_eq;
        (eexists; split; [reflexivity |];
         cbn [length app];
         repeat match goal with
                | Hb : ?b = _ |- context [if ?b then _ else _] => rewrite Hb
                end;
         first [ done | by eexists ])
      | intros Hnone; simplify_eq; (eexists; split; [reflexivity | done]) ].
  - intros n mv. run_cases; intros Hlast Hmarker; cbn in Hlast; simplify_eq.
    all: try done.
    all: by rewrite Hmarker in *.
  - intros mv. run_cases; intros Hlast Hmarker; cbn in Hlast; simplify_eq.
    all: try done.
    all: by rewrite Hmarker in *.
  - intros o e. run_cases; intros Hlast; cbn in Hlast; simplify_eq.
    all: try done.
    all: by repeat match goal with
                   | Hb : ?b = _ |- context [if ?b then _ else _] => rewrite Hb
                   end.
Qed.

(** *** Linking a prompt version that does not resolve *)

Lemma absent_version_model {W : Type} (h : handler W) (w : W)
    (name version model_id : string) :
  let prefix := run h (get_prompt_version name (VStr version)) w in
  let out := run h (link_prompt_version_to_model name version model_id) w in
  res prefix = Ok None →
  (∃ e, res out = Exc e)
  ∧ no_link_write (log out)
  ∧ (∃ acquired rest, log out = log prefix ++ existT lock_acquire acquired :: rest)
  ∧ (∀ lm released,
       (existT (get_logged_model model_id) (Ok (Some lm)) : event) ∈ log out →
       (existT lock_release (Ok released) : event) ∈ log out →
       res out = Exc (PyError AttributeError)).
Proof.
  intros prefix out. subst prefix out. unfold link_prompt_version_to_model.
  split_prefix name (VStr version); [| done].
  intros [= ->]. unfold new_prompt_entry.
  run_cases.
  all: split_and!;
    [ eauto
    | rewrite no_link_write_app; split; [by apply registry_reads_no_write | no_write]
    | by eexists _, _
    | intros ? ? Hin Hrel;
      apply elem_of_app in Hin as [Hin | Hin];
      [ by apply (registry_read_event _ _ Hreads) in Hin |];
      apply elem_of_app in Hrel as [Hrel | Hrel];
      [ by apply (registry_read_event _ _ Hreads) in Hrel |];
      event_inv Hin; event_inv Hrel; done ].
Qed.

Lemma absent_version_run {W : Type} (h : handler W) (w : W)
    (name version run_id : string) :
  let prefix := run h (get_prompt_version name (VStr version)) w in
  let out := run h (link_prompt_version_to_run name version run_id) w in
  res prefix = Ok None →
  (∃ e, res out = Exc e)
  ∧ no_link_write (log out)
  ∧ (∃ acquired rest, log out = log prefix ++ existT lock_acquire acquired :: rest)
  ∧ (∀ r released,
       (existT (get_run run_id) (Ok (Some r)) : event) ∈ log out →
       (existT lock_release (Ok released) : event) ∈ log out →
       res out = Exc (PyError AttributeError)).
Proof.
  intros prefix out. subst prefix out. unfold link_prompt_version_to_run.
  split_prefix name (VStr version); [| done].
  intros [= ->]. unfold new_prompt_entry.
  run_cases.
  all: split_and!;
    [ eauto
    | rewrite no_link_write_app; split; [by apply registry_reads_no_write | no_write]
    | by eexists _, _
    | intros ? ? Hin Hrel;
      apply elem_of_app in Hin as [Hin | Hin];
      [ by apply (registry_read_event _ _ Hreads) in Hin |];
      apply elem_of_app in Hrel as [Hrel | Hrel];
      [ by apply (registry_read_event _ _ Hreads) in Hrel |];
      event_inv Hin; event_inv Hrel; done ].
Qed.

(** C10. [link_prompt_version_to_model] and [link_prompt_version_to_run]
    resolve the prompt version first: the log of the run is the log of
    [get_prompt_version name version], which holds reads of the registry
    only, followed by the acquisition of the link lock.  When the resolution
    gives [None], the operation ends with an error and writes no tag; when
    the target is found and the lock is released, the error is the
    [AttributeError] of building the link entry from [None].  Building the
    entry from a prompt version does not raise. *)
Theorem absent_prompt_version_never_links {W : Type} (h : handler W) (w : W)
    (name version : string) :
  let prefix := run h (get_prompt_version name (VStr version)) w in
  res prefix = Ok None →
  Forall (λ o, is_registry_read o = true) (ops (log prefix))
  ∧ (∀ model_id,
       let out := run h (link_prompt_version_to_model name version model_id) w in
       (∃ e, res out = Exc e)
       ∧ no_link_write (log out)
       ∧ (∃ acquired rest,
            log out = log prefix ++ existT lock_acquire acquired :: rest)
       ∧ (∀ lm released,
            (existT (get_logged_model model_id) (Ok (Some lm)) : event) ∈ log out →
            (existT lock_release (Ok released) : event) ∈ log out →
            res out = Exc (PyError AttributeError)))
  ∧ (∀ run_id,
       let out := run h (link_prompt_version_to_run name version run_id) w in
       (∃ e, res out = Exc e)
       ∧ no_link_write (log out)
       ∧ (∃ acquired rest,
            log out = log prefix ++ existT lock_acquire acquired :: rest)
       ∧ (∀ r released,
            (existT (get_run run_id) (Ok (Some r)) : event) ∈ log out →
            (existT lock_release (Ok released) : event) ∈ log out →
            res out = Exc (PyError AttributeError)))
  ∧ new_prompt_entry None = Raise (PyError AttributeError)
  ∧ (∀ pv, new_prompt_entry (Some pv) = Ret (entry_of pv)).
Proof.
  intros prefix Hnone. split_and!.
  - apply get_prompt_version_reads.
  - intros model_id. by apply absent_version_model.
  - intros run_id. by apply absent_version_run.
  - done.
  - done.
Qed.

(** *** The poller *)

Section PollerLoop.
Context {W : Type} (h : handler W) (max_time await_creation_for : Z) (hint : string).

Lemma await_loop_not_pending (fuel : nat) (mv : ModelVersion) :
  is_pending mv = false →
  await_loop fuel max_time await_creation_for hint mv = Ret (Some mv).
Proof. intros Hp. destruct fuel; cbn; by rewrite Hp. Qed.

(** Close a case of the loop where the hypotheses on what was pending
    contradict each other. *)
Ltac pending_clash :=
  repeat match goal with
         | Hn : negb _ = true |- _ => rewrite negb_true_iff in Hn
         | Hn : negb _ = false |- _ => rewrite negb_false_iff in Hn
         end;
  match goal with
  | H1 : is_pending ?m = true, H2 : is_pending ?m = false |- _ =>
      rewrite H1 in H2; discriminate H2
  end.

(** When the version last observed is not pending, the loop returns it. *)
Lemma await_loop_exit (fuel : nat) (mv : ModelVersion) (w : W) :
  let lo := run h (await_loop fuel max_time await_creation_for hint mv) w in
  is_pending (observed mv (log lo)) = false →
  res lo = Ok (Some (observed mv (log lo))).
Proof.
  revert mv w. induction fuel as [| fuel IH]; intros mv w; cbn zeta.
  - cbn [await_loop]. destruct (is_pending mv) eqn:Hp; cbn [run res log observed].
    + intros Hnp. rewrite Hp in Hnp. discriminate Hnp.
    + reflexivity.
  - cbn [await_loop]. destruct (is_pending mv) eqn:Hp; [| reflexivity].
    run_cases; cbn [observed fetched app]; intros Hnp.
    all: lazymatch goal with
         | |- res (run _ _ _) = _ => apply IH; exact Hnp
         | |- Ok _ = Ok _ => reflexivity
         | _ => pending_clash
         end.
Qed.

(** What the loop returns is the version last observed, and is not pending. *)
Lemma await_loop_returns (fuel : nat) (mv mv' : ModelVersion) (w : W) :
  let lo := run h (await_loop fuel max_time await_creation_for hint mv) w in
  res lo = Ok (Some mv') →
  mv' = observed mv (log lo) ∧ is_pending mv' = false.
Proof.
  revert mv w. induction fuel as [| fuel IH]; intros mv w; cbn zeta.
  - cbn [await_loop]. destruct (is_pending mv) eqn:Hp; cbn [run res log observed].
    + intros Hret. discriminate Hret.
    + intros [= <-]. by split.
  - cbn [await_loop]. destruct (is_pending mv) eqn:Hp;
      [| cbn [run res log observed]; intros [= <-]; by split].
    run_cases; cbn [observed fetched app]; intros Hret.
    all: lazymatch type of Hret with
         | res (run _ _ _) = _ => apply IH; exact Hret
         | Exc _ = _ => discriminate Hret
         | Ok _ = _ => idtac
         end.
    injection Hret as <-. split; [reflexivity |]. by apply negb_true_iff.
Qed.

(** A reading of the clock past the deadline ends the loop with the timeout
    error, which names the version observed until then, still pending. *)
Lemma await_loop_timeout (fuel : nat) (mv : ModelVersion) (w : W) (i : nat) (now : Z) :
  let lo := run h (await_loop fuel max_time await_creation_for hint mv) w in
  log lo !! i = Some (existT time (Ok now)) →
  max_time < now →
  let seen := observed mv (take i (log lo)) in
  res lo = Exc (MlflowException (timeout_message seen await_creation_for hint) None)
  ∧ is_pending seen = true.
Proof.
  revert mv w i. induction fuel as [| fuel IH]; intros mv w i; cbn zeta.
  - cbn [await_loop]. destruct (is_pending mv) eqn:Hp; cbn [run res log]; intros Hi; done.
  - cbn [await_loop]. destruct (is_pending mv) eqn:Hp;
      [| cbn [run res log]; intros Hi; done].
    run_cases; cbn [app]; intros Hi Hlate.
    all: destruct i as [| [| [| i]]]; cbn [lookup list_lookup take observed fetched] in *.
    all: try discriminate Hi.
    all: lazymatch type of Hi with
         | log _ !! _ = _ => apply IH; [exact Hi | exact Hlate]
         | _ =>
             apply (inj Some) in Hi; apply event_answer in Hi; injection Hi as ->;
             first [ split; [reflexivity | exact Hp]
                   | apply Z.ltb_ge in Heqb; lia ]
         end.
Qed.

(** Every read of the version comes right after a reading of the clock that
    is within the deadline, and reads the version observed until then, which
    is pending. *)
Lemma await_loop_checks (fuel : nat) (mv : ModelVersion) (w : W) (i : nat)
    (name : string) (version : Z) (r : result ModelVersion) :
  let lo := run h (await_loop fuel max_time await_creation_for hint mv) w in
  log lo !! i = Some (existT (get_model_version name version) r) →
  ∃ (j : nat) (now : Z),
    i = S j
    ∧ log lo !! j = Some (existT time (Ok now))
    ∧ now ≤ max_time
    ∧ name = mv_name (observed mv (take j (log lo)))
    ∧ version = mv_version (observed mv (take j (log lo)))
    ∧ is_pending (observed mv (take j (log lo))) = true.
Proof.
  revert mv w i. induction fuel as [| fuel IH]; intros mv w i; cbn zeta.
  - cbn [await_loop]. destruct (is_pending mv) eqn:Hp; cbn [run res log]; intros Hi; done.
  - cbn [await_loop]. destruct (is_pending mv) eqn:Hp;
      [| cbn [run res log]; intros Hi; done].
    run_cases; cbn [app]; intros Hi.
    all: destruct i as [| [| [| i]]]; cbn [lookup list_lookup] in Hi.
    all: try discriminate Hi.
    all: try (apply (inj Some), event_op in Hi; discriminate Hi).
    all: lazymatch type of Hi with
         | log _ !! _ = _ =>
             destruct (IH _ _ _ Hi) as (j & now & -> & Hj & Hle & Hn & Hv & Hpj);
             exists (S (S (S j))), now;
             cbn [lookup list_lookup take observed fetched];
             split_and!; first [ assumption | reflexivity ]
         | _ =>
             apply (inj Some) in Hi;
             pose proof (event_op _ _ Hi) as Ho; cbn [projT1] in Ho;
             injection Ho as <- <-;
             eexists 0%nat, _;
             cbn [lookup list_lookup take observed fetched];
             split_and!;
             [ reflexivity | reflexivity | apply Z.ltb_ge in Heqb; exact Heqb
             | reflexivity | reflexivity | exact Hp ]
         end.
Qed.

(** A run that did not stop for lack of fuel is the same with more fuel. *)
Lemma await_loop_fuel (fuel k : nat) (mv : ModelVersion) (w : W) :
  let lo := run h (await_loop fuel max_time await_creation_for hint mv) w in
  res lo ≠ Ok None →
  run h (await_loop (fuel + k) max_time await_creation_for hint mv) w = lo.
Proof.
  revert mv w. induction fuel as [| fuel IH]; intros mv w; cbn zeta.
  - destruct (is_pending mv) eqn:Hp.
    + cbn [await_loop]. rewrite Hp. cbn [run res]. intros Hres. by destruct Hres.
    + intros _. by rewrite !await_loop_not_pending.
  - cbn [Nat.add await_loop]. destruct (is_pending mv) eqn:Hp; [| reflexivity].
    run_cases; intros Hres; try reflexivity.
    by rewrite IH.
Qed.

(** A run stops for lack of fuel after as many reads of the version as it
    had fuel. *)
Lemma await_loop_out_of_fuel (fuel : nat) (mv : ModelVersion) (w : W) :
  let lo := run h (await_loop fuel max_time await_creation_for hint mv) w in
  res lo = Ok None → polls (log lo) = fuel.
Proof.
  revert mv w. induction fuel as [| fuel IH]; intros mv w; cbn zeta.
  - cbn [await_loop]. by destruct (is_pending mv).
  - cbn [await_loop]. destruct (is_pending mv) eqn:Hp; [| intros Hres; discriminate Hres].
    run_cases; intros Hres; try discriminate Hres.
    unfold polls. cbn [app List.filter is_poll projT1 length]. f_equal.
    by apply IH.
Qed.

End PollerLoop.

(** The poller reads the clock and runs the loop; its answer follows from
    the version the loop returns. *)
Lemma run_await_impl {W : Type} (h : handler W) (w w0 : W) (fuel : nat)
    (mv : ModelVersion) (await_creation_for : Z) (hint : string) (start : Z) :
  h time w = (Ok start, w0) →
  let lo := run h (await_loop fuel (start + await_creation_for) await_creation_for
                     hint mv) w0 in
  let out := run h (_await_model_version_creation_impl fuel mv await_creation_for hint) w in
  log out = existT time (Ok start) :: log lo
  ∧ res out = match res lo with
              | Ok None => Ok None
              | Ok (Some mv') =>
                  if bool_decide (mv_status mv' = READY) then Ok (Some tt)
                  else Exc (MlflowException
                              (creation_failed_message (entity_type mv) mv') None)
              | Exc e => Exc e
              end.
Proof.
  intros Htime lo out. subst lo out. unfold _await_model_version_creation_impl.
  run_simpl. rewrite Htime. run_simpl.
  destruct (run h (await_loop fuel (start + await_creation_for) await_creation_for
                     hint mv) w0) as [[[mv' |] | e] w1 l1]; cbn [res final log].
  - destruct (bool_decide (mv_status mv' = READY)); cbn [negb]; run_simpl;
      by rewrite ?app_nil_r.
  - run_simpl. by rewrite ?app_nil_r.
  - done.
Qed.

Lemma ready_not_pending (mv : ModelVersion) :
  mv_status mv = READY → is_pending mv = false.
Proof. unfold is_pending. by intros ->. Qed.

Lemma await_impl_fuel {W : Type} (h : handler W) (w w0 : W) (fuel k : nat)
    (mv : ModelVersion) (await_creation_for : Z) (hint : string) (start : Z) :
  h time w = (Ok start, w0) →
  let out := run h (_await_model_version_creation_impl fuel mv await_creation_for hint) w in
  res out ≠ Ok None →
  run h (_await_model_version_creation_impl (fuel + k) mv await_creation_for hint) w = out.
Proof.
  intros Htime out. subst out. unfold _await_model_version_creation_impl.
  run_simpl. rewrite Htime. run_simpl. intros Hres.
  rewrite await_loop_fuel; [reflexivity |].
  intros Hnone. apply Hres. rewrite Hnone. by run_simpl.
Qed.

(** C4. [_await_model_version_creation_impl], once the clock gave the start
    time, whatever the handler answers afterwards:
    - it returns normally exactly when the status last observed is READY;
    - a reading of the clock past start time + timeout ends it with the
      timeout error, whose message names the name, the version and the
      status of the version observed until then, which is pending, and the
      wait time;
    - every read of the version comes right after a reading of the clock
      that is within the deadline, and it is a read of the version observed
      until then, which is pending;
    - when the status last observed is neither PENDING_REGISTRATION nor
      READY, it ends with the creation-failed error, whose message carries
      that status and the status message;
    - a run that ended is the same with more fuel, and a run stops for lack
      of fuel only after as many reads of the version as it had fuel. *)
Theorem await_version_creation_contract {W : Type} (h : handler W) (w w0 : W)
    (fuel : nat) (mv : ModelVersion) (await_creation_for : Z) (hint : string)
    (start : Z) :
  h time w = (Ok start, w0) →
  let out := run h (_await_model_version_creation_impl fuel mv await_creation_for hint) w in
  let deadline := start + await_creation_for in
  (res out = Ok (Some tt) ↔ mv_status (observed mv (log out)) = READY)
  ∧ (∀ i now,
       log out !! S i = Some (existT time (Ok now)) →
       deadline < now →
       let seen := observed mv (take (S i) (log out)) in
       is_pending seen = true
       ∧ res out = Exc (MlflowException
                          (timeout_message seen await_creation_for hint) None))
  ∧ (∀ i name version r,
       log out !! i = Some (existT (get_model_version name version) r) →
       ∃ j now,
         i = S j ∧ (0 < j)%nat
         ∧ log out !! j = Some (existT time (Ok now))
         ∧ now ≤ deadline
         ∧ let seen := observed mv (take j (log out)) in
           name = mv_name seen ∧ version = mv_version seen
           ∧ is_pending seen = true)
  ∧ (is_pending (observed mv (log out)) = false →
     mv_status (observed mv (log out)) ≠ READY →
     res out = Exc (MlflowException
                      (creation_failed_message (entity_type mv)
                         (observed mv (log out))) None))
  ∧ (res out ≠ Ok None →
     ∀ k, run h (_await_model_version_creation_impl (fuel + k) mv
                   await_creation_for hint) w = out)
  ∧ (res out = Ok None → polls (log out) = fuel).
Proof.
  intros Htime out deadline.
  destruct (run_await_impl h w w0 fuel mv await_creation_for hint start Htime)
    as [Hlog Hres].
  fold out in Hlog, Hres. fold deadline in Hlog, Hres.
  set (lo := run h (await_loop fuel deadline await_creation_for hint mv) w0) in *.
  assert (Hobs : observed mv (log out) = observed mv (log lo)) by (by rewrite Hlog).
  split_and!.
  - rewrite Hobs, Hres. split.
    + intros Hok. destruct (res lo) as [[mv' |] | e] eqn:Hlo; try discriminate Hok.
      apply await_loop_returns in Hlo as [-> _].
      destruct (bool_decide _) eqn:Hb; [| discriminate Hok].
      by apply bool_decide_eq_true in Hb.
    + intros Hready. subst lo.
      rewrite await_loop_exit by (by apply ready_not_pending).
      by rewrite bool_decide_eq_true_2.
  - intros i now. rewrite Hlog. cbn [lookup list_lookup take observed fetched].
    intros Hi Hlate. cbn zeta.
    destruct (await_loop_timeout h deadline await_creation_for hint fuel mv w0 i now Hi Hlate)
      as [Hlo Hp].
    split; [exact Hp |]. rewrite Hres. fold lo in Hlo. by rewrite Hlo.
  - intros i name version r. rewrite Hlog. destruct i as [| i].
    + cbn [lookup list_lookup]. intros Hi.
      apply (inj Some), event_op in Hi. discriminate Hi.
    + cbn [lookup list_lookup]. intros Hi.
      destruct (await_loop_checks h deadline await_creation_for hint fuel mv w0 i
                  name version r Hi) as (j & now & -> & Hj & Hle & Hn & Hv & Hp).
      exists (S j), now. cbn [lookup list_lookup take observed fetched].
      split_and!; first [ assumption | reflexivity | lia ].
  - rewrite Hobs, Hres. intros Hp Hstatus. subst lo.
    rewrite await_loop_exit by exact Hp.
    by rewrite bool_decide_eq_false_2.
  - intros Hout k.
    exact (await_impl_fuel h w w0 fuel k mv await_creation_for hint start Htime Hout).
  - rewrite Hres, Hlog. intros Hnone.
    destruct (res lo) as [[mv' |] | e] eqn:Hlo.
    + by destruct (bool_decide _).
    + subst lo. by apply await_loop_out_of_fuel in Hlo.
    + discriminate Hnone.
Qed.

(** C7. [delete_prompt_version], [set_prompt_version_tag] and
    [delete_prompt_version_tag]: when [int(version)] fails, each raises the
    [MlflowException] "Invalid version number: ..." without calling the
    store; when it gives [n], each is the call of the model-version
    operation with [n]. *)
Theorem integer_parse_or_fail (name : string) (version : version_arg)
    (key value : string) :
  (py_int version = None →
   let e := MlflowException ("Invalid version number: " +:+ py_str version) None in
   delete_prompt_version name version = Raise e
   ∧ set_prompt_version_tag name version key value = Raise e
   ∧ delete_prompt_version_tag name version key = Raise e)
  ∧ (∀ n : Z, py_int version = Some n →
     delete_prompt_version name version = call (delete_model_version name n)
     ∧ set_prompt_version_tag name version key value
       = call (set_model_version_tag name n (mkTag key value))
     ∧ delete_prompt_version_tag name version key
       = call (delete_model_version_tag name n key)).
Proof.
  unfold delete_prompt_version, set_prompt_version_tag, delete_prompt_version_tag,
    invalid_version_message.
  split.
  - intros ->. by cbn.
  - intros n ->. done.
Qed.

End Claims.

(** * The methods on the scenario *)

Import Backend Scenario.

Example str_of_int_0 : str_of_int 0 = "0"%string.
Proof. reflexivity. Qed.

Example str_of_int_neg : str_of_int (-42) = "-42"%string.
Proof. reflexivity. Qed.

Example int_of_3 : py_int (VStr "3") = Some 3.
Proof. reflexivity. Qed.

Example int_of_abc : py_int (VStr "abc") = None.
Proof. reflexivity. Qed.

Example int_of_padded : py_int (VStr " -1_000 ") = Some (-1000).
Proof. reflexivity. Qed.

Example int_of_bad_group : py_int (VStr "1__0") = None.
Proof. reflexivity. Qed.

Example loads_dumps_linked_once : Reference.loads linked_once = Some (PList linked_v1).
Proof. vm_compute. reflexivity. Qed.

(** C7 on "abc" and on "3". *)
Lemma integer_parse_or_fail_witness :
  delete_prompt_version "greeting" (VStr "abc")
  = Raise (MlflowException "Invalid version number: abc" None)
  ∧ delete_prompt_version "greeting" (VStr "3")
    = call (delete_model_version "greeting" 3).
Proof.
  split.
  - exact (proj1 (proj1 (integer_parse_or_fail "greeting" (VStr "abc") "k" "v")
                    eq_refl)).
  - exact (proj1 (proj2 (integer_parse_or_fail "greeting" (VStr "3") "k" "v")
                    3 eq_refl)).
Defined.

(** C2 on the prompt "greeting" and on the registered model "classifier". *)
Lemma get_prompt_projection_witness :
  res (run handle (get_prompt "greeting") base)
  = Ok (Some (mkPrompt "greeting" None (Some 0) {[ "team"%string := "docs"%string ]}))
  ∧ res (run handle (get_prompt "classifier") base) = Ok None.
Proof.
  split.
  - refine (proj1 (get_prompt_projection handle base base "greeting" greeting eq_refl) _).
    vm_compute. reflexivity.
  - refine (proj2 (get_prompt_projection handle base base "classifier" classifier
                     eq_refl) _).
    intros Hmarker. vm_compute in Hmarker. discriminate Hmarker.
Defined.

(** C3 on the tag that links version 1, linking versions 1 and 2. *)
Lemma link_merge_invariant_witness :
  ∃ appended : list link_entry,
    _update_linked_prompts_tag (Some linked_once)
      [mkEntry "greeting" "1"; mkEntry "greeting" "2"]
    = Ok (Reference.dumps (PList (linked_v1 ++ (entry_value <$> appended))))
    ∧ appended = [mkEntry "greeting" "2"].
Proof.
  destruct (@link_merge_invariant runtime linked_once linked_v1
              [mkEntry "greeting" "1"; mkEntry "greeting" "2"] loads_dumps_linked_once)
    as (appended & Hupdate & Hsub & Hnodup & Hmem & _).
  exists appended. split; [exact Hupdate |].
  assert (H2 : mkEntry "greeting" "2" ∈ appended).
  { apply Hmem. split; [| reflexivity]. right. left. }
  assert (H1 : mkEntry "greeting" "1" ∉ appended).
  { intros [_ Hout]%Hmem. discriminate Hout. }
  apply sublist_cons_r in Hsub as [Hsub | (l' & -> & _)]; [| by destruct H1; left].
  apply sublist_cons_r in Hsub as [Hsub | (l' & -> & Hsub)].
  - apply sublist_nil_r in Hsub as ->. by apply elem_of_nil in H2.
  - by apply sublist_nil_r in Hsub as ->.
Defined.

(** C1 on the trace, the logged model and the run that link version 1
    already: linking it again writes nothing. *)
Lemma linking_again_witness :
  no_link_write (log (run handle (link_prompts_to_trace [pv1] "trace-linked") base))
  ∧ no_link_write
      (log (run handle (link_prompt_version_to_model "greeting" "1" "model-linked") base))
  ∧ no_link_write
      (log (run handle (link_prompt_version_to_run "greeting" "1" "run-linked") base)).
Proof.
  destruct (@linking_again_is_idempotent runtime _ handle base linked_once linked_v1
              loads_dumps_linked_once)
    as (Htrace & Hmodel & Hrun).
  split_and!.
  - refine (proj1 (proj2 (Htrace [pv1] "trace-linked" (mkTraceInfo (tagged linked_once))
                            _ _ _)) _).
    + intros pv ->%list_elem_of_singleton. reflexivity.
    + vm_compute. repeat constructor.
    + reflexivity.
    + reflexivity.
  - refine (proj1 (proj2 (Hmodel "greeting" "1" "model-linked"
                            (mkLoggedModel (tagged linked_once)) pv1 _ _ _ _)) _).
    + reflexivity.
    + vm_compute. reflexivity.
    + vm_compute. repeat constructor.
    + reflexivity.
    + reflexivity.
  - refine (proj1 (proj2 (Hrun "greeting" "1" "run-linked"
                            (mkRun (TagList [mkTag "mlflow.linkedPrompts" linked_once]))
                            pv1 _ _ _ _)) _).
    + reflexivity.
    + vm_compute. reflexivity.
    + vm_compute. repeat constructor.
    + reflexivity.
    + reflexivity.
Defined.

(** C6 on the trace, the logged model and the run whose tag is malformed:
    text that is not JSON, a JSON object, a JSON number. *)
Lemma malformed_tag_witness :
  ((∃ e, res (run handle (link_prompts_to_trace [pv1] "trace-bad") base) = Exc e)
   ∧ no_link_write (log (run handle (link_prompts_to_trace [pv1] "trace-bad") base)))
  ∧ ((∃ e, res (run handle (link_prompt_version_to_model "greeting" "1" "model-bad")
                  base) = Exc e)
     ∧ no_link_write
         (log (run handle (link_prompt_version_to_model "greeting" "1" "model-bad")
                 base)))
  ∧ ((∃ e, res (run handle (link_prompt_version_to_run "greeting" "1" "run-bad")
                  base) = Exc e)
     ∧ no_link_write
         (log (run handle (link_prompt_version_to_run "greeting" "1" "run-bad") base))).
Proof.
  split; [| split].
  - refine (proj1 (@malformed_tag_fails_without_write runtime _ handle base
                     "not json" _)
              [pv1] "trace-bad" (mkTraceInfo (tagged "not json")) _ _).
    + intros parsed Hparse. vm_compute in Hparse. discriminate Hparse.
    + vm_compute. repeat constructor.
    + reflexivity.
  - refine (proj1 (proj2 (@malformed_tag_fails_without_write runtime _ handle base
                            "{}" _))
              "greeting" "1" "model-bad" (mkLoggedModel (tagged "{}")) _ _).
    + intros parsed Hparse. vm_compute in Hparse. discriminate Hparse.
    + vm_compute. repeat constructor.
    + reflexivity.
  - refine (proj2 (proj2 (@malformed_tag_fails_without_write runtime _ handle base
                            "42" _))
              "greeting" "1" "run-bad" (mkRun (TagDict (tagged "42"))) _ _).
    + intros parsed Hparse. vm_compute in Hparse. discriminate Hparse.
    + vm_compute. repeat constructor.
    + reflexivity.
Defined.

(** C10 on version 2 of "greeting", which is not a prompt version. *)
Lemma absent_prompt_version_witness :
  (res (run handle (link_prompt_version_to_model "greeting" "2" "model-linked") base)
   = Exc (PyError AttributeError)
   ∧ no_link_write
       (log (run handle (link_prompt_version_to_model "greeting" "2" "model-linked")
               base)))
  ∧ (res (run handle (link_prompt_version_to_run "greeting" "2" "run-linked") base)
     = Exc (PyError AttributeError)
     ∧ no_link_write
         (log (run handle (link_prompt_version_to_run "greeting" "2" "run-linked")
                 base))).
Proof.
  assert (Hnone : res (run handle (get_prompt_version "greeting" (VStr "2")) base)
                  = Ok None) by (vm_compute; reflexivity).
  destruct (@absent_prompt_version_never_links runtime _ handle base "greeting" "2"
              Hnone) as (_ & Hmodel & Hrun & _).
  split.
  - destruct (Hmodel "model-linked") as (_ & Hwrite & _ & Herror).
    split; [| exact Hwrite].
    apply (Herror (mkLoggedModel (tagged linked_once)) tt).
    + vm_compute. repeat constructor.
    + vm_compute. repeat constructor.
  - destruct (Hrun "run-linked") as (_ & Hwrite & _ & Herror).
    split; [| exact Hwrite].
    apply (Herror (mkRun (TagList [mkTag "mlflow.linkedPrompts" linked_once])) tt).
    + vm_compute. repeat constructor.
    + vm_compute. repeat constructor.
Defined.

(** C4 on version 4 of "greeting": ready at the third read; pending past a
    deadline of 5 seconds; failed at the second read. *)
Lemma await_version_creation_witness :
  res (run handle (_await_model_version_creation_impl 10 v4 100 EmptyString) base)
  = Ok (Some tt)
  ∧ res (run handle (_await_model_version_creation_impl 10 v4 5 EmptyString) stuck)
    = Exc (MlflowException (timeout_message v4 5 EmptyString) None)
  ∧ res (run handle (_await_model_version_creation_impl 10 v4 100 EmptyString) failing)
    = Exc (MlflowException
             (creation_failed_message "Prompt" (with_status v4 "FAILED_REGISTRATION"))
             None).
Proof.
  split_and!.
  - apply (proj1 (@await_version_creation_contract runtime _ handle base base 10 v4
                    100 EmptyString 0 eq_refl)).
    vm_compute. reflexivity.
  - refine (proj2 (proj1 (proj2 (@await_version_creation_contract runtime _ handle
                                   stuck stuck 10 v4 5 EmptyString 0 eq_refl))
                     6%nat 6 _ _)).
    + vm_compute. reflexivity.
    + reflexivity.
  - refine (proj1 (proj2 (proj2 (proj2 (@await_version_creation_contract runtime _
                                          handle failing failing 10 v4 100
                                          EmptyString 0 eq_refl)))) _ _).
    + vm_compute. reflexivity.
    + intros Hready. vm_compute in Hready. discriminate Hready.
Defined.

(** C5, the claim as stated fails: reading version 1 by its number raises a
    [ValueError], which is not an [MlflowException]; the alias "1" is looked
    up and the result is version 3, not [None]. *)
Lemma value_error_falls_back_to_alias :
  let out := run handle (get_prompt_version "greeting" (VStr "1")) faulty in
  log out !! 1%nat
  = Some (existT (get_model_version "greeting" 1) (Exc (PyError ValueError)))
  ∧ res out = Ok (Some pv3).
Proof. vm_compute. split; reflexivity. Qed.

(** C8, the claim as stated fails: a response format is given, the empty
    dict, and the version gets no response-format tag. *)
Lemma empty_response_format_adds_no_tag :
  ops (log (run handle
              (create_prompt_version "greeting" (TText "Hello {{name}}") None None
                 (Some (RFDict [])))
              base))
  = [create_model_version "greeting" "prompt-template"
       [mkTag "mlflow.prompt.is_prompt" "true";
        mkTag "mlflow.prompt.text" "Hello {{name}}";
        mkTag "_mlflow_prompt_type" "text"]
       None;
     get_registered_model "greeting"].
Proof. vm_compute. reflexivity. Qed.

(** C9, the code at the alias "3", which points to version 1: the string is
    read as the version number 3, the alias is never looked up, and the
    result is version 3. *)
Lemma numeric_alias_read_as_version :
  let out := run handle (get_prompt_version_by_alias "greeting" "3") base in
  w_aliases base !! ("greeting"%string, "3"%string) = Some 1
  ∧ ops (log out) = [get_registered_model "greeting"; get_model_version "greeting" 3]
  ∧ res out = Ok (Some pv3).
Proof. vm_compute. split_and!; reflexivity. Qed.

(** The scenario of the spec: version 1 is linked to the trace "trace-42"
    twice.  The first call writes the tag with one entry; the second call
    reads it, writes nothing and leaves the backend as it was. *)
Example link_twice_same_world :
  let first := run handle (link_prompts_to_trace [pv1] "trace-42") base in
  let second := run handle (link_prompts_to_trace [pv1] "trace-42") (final first) in
  ti_tags <$> (w_traces (final first) !! "trace-42"%string) = Some (tagged linked_once)
  ∧ ops (log first)
    = [lock_acquire; get_trace_info "trace-42";
       set_trace_tag "trace-42" "mlflow.linkedPrompts" linked_once; lock_release]
  ∧ ops (log second) = [lock_acquire; get_trace_info "trace-42"; lock_release]
  ∧ final second = final first.
Proof. vm_compute. split_and!; reflexivity. Qed.

(** * Further properties of the methods *)

Section Extras.
Context `{Runtime}.

(** *** Laws of the merge *)

Lemma merge_entries_app (l : list pyval) (a b : list link_entry) :
  merge_entries (merge_entries l a) b = merge_entries l (a ++ b).
Proof. unfold merge_entries. by rewrite foldl_app. Qed.

Lemma merge_entries_holds_new (l : list pyval) (a : list link_entry) (e : link_entry) :
  e ∈ a → entry_in e (merge_entries l a) = true.
Proof.
  intros He.
  destruct (merge_entries_appends l a) as (appended & -> & _ & _ & Hmem).
  rewrite entry_in_app. destruct (entry_in e l) eqn:Hin; [done |]. cbn.
  apply entry_in_values, Hmem. by split.
Qed.

Lemma merge_entries_length (l : list pyval) (a : list link_entry) :
  (length l ≤ length (merge_entries l a) ≤ length l + length a)%nat.
Proof.
  destruct (merge_entries_appends l a) as (appended & -> & Hsub & _ & _).
  rewrite length_app, length_fmap. apply sublist_length in Hsub. lia.
Qed.

(** X1.  The merge loop of [_update_linked_prompts_tag].  Merging [a] and then
    [b] is merging [a ++ b]; merging the same entries again changes nothing;
    every new entry is in the merged list; the merged list is at least as
    long as the list and grows by at most the number of new entries. *)
Theorem merge_entries_laws (l : list pyval) (a b : list link_entry) :
  merge_entries (merge_entries l a) b = merge_entries l (a ++ b)
  ∧ merge_entries (merge_entries l a) a = merge_entries l a
  ∧ (∀ e, e ∈ a → entry_in e (merge_entries l a) = true)
  ∧ (length l ≤ length (merge_entries l a) ≤ length l + length a)%nat.
Proof.
  split_and!.
  - apply merge_entries_app.
  - apply merge_entries_present. intros e. apply merge_entries_holds_new.
  - intros e. apply merge_entries_holds_new.
  - apply merge_entries_length.
  - apply merge_entries_length.
Qed.

(** X2.  [_update_linked_prompts_tag] applied to its own result.  When the
    current tag is absent or parses as an array, and the serialization of
    the merged array parses back as that array, updating the new value with
    the same entries returns the new value again: a second link finds
    nothing to write. *)
Theorem update_twice_same_value (current : option string) (parsed : list pyval)
    (new : list link_entry) :
  parse_linked_prompts current = Ok parsed →
  let merged := merge_entries parsed new in
  json_loads (json_dumps (PList merged)) = Some (PList merged) →
  _update_linked_prompts_tag current new = Ok (json_dumps (PList merged))
  ∧ _update_linked_prompts_tag (Some (json_dumps (PList merged))) new
    = Ok (json_dumps (PList merged)).
Proof.
  intros Hparse merged Hround. split.
  - unfold _update_linked_prompts_tag. by rewrite Hparse.
  - apply update_present; [exact Hround |].
    intros e. apply merge_entries_holds_new.
Qed.

(** *** The link methods: a missing target, the first link, the lock *)

(** Set the run of [get_prompt_version] apart from the rest of a link
    method. *)
Ltac prefix_outcome name version :=
  rewrite run_mbind;
  match goal with
  | |- context [run ?h (get_prompt_version name version) ?w] =>
      let Hreads := fresh "Hreads" in
      pose proof (get_prompt_version_reads h w name version) as Hreads;
      destruct (run h (get_prompt_version name version) w) as [[? | ?] ? ?];
      unfold then_run; cbn [res final log] in *
  end.

(** An event of a log that follows reads of the registry is not among
    these reads when its operation is none. *)
Ltac past_reads Hreads Hin :=
  apply elem_of_app in Hin as [Hin | Hin];
  [ by apply (registry_read_event _ _ Hreads) in Hin |].

Lemma missing_trace {W : Type} (h : handler W) (w : W)
    (prompt_versions : list PromptVersion) (trace_id : string) :
  let out := run h (link_prompts_to_trace prompt_versions trace_id) w in
  (existT (get_trace_info trace_id) (Ok None) : event) ∈ log out →
  (∃ e, res out = Exc e)
  ∧ no_link_write (log out)
  ∧ (∀ released, (existT lock_release (Ok released) : event) ∈ log out →
     res out = Exc (MlflowException (no_trace_message trace_id)
                      (Some RESOURCE_DOES_NOT_EXIST))).
Proof.
  intros out. subst out. unfold link_prompts_to_trace.
  run_cases; intros Hin; event_inv Hin.
  all: split_and!; [ eauto | no_write | intros ? Hrel; event_inv Hrel; done ].
Qed.

Lemma missing_model {W : Type} (h : handler W) (w : W)
    (name version model_id : string) :
  let out := run h (link_prompt_version_to_model name version model_id) w in
  (existT (get_logged_model model_id) (Ok None) : event) ∈ log out →
  (∃ e, res out = Exc e)
  ∧ no_link_write (log out)
  ∧ (∀ released, (existT lock_release (Ok released) : event) ∈ log out →
     res out = Exc (MlflowException (no_model_message model_id name)
                      (Some RESOURCE_DOES_NOT_EXIST))).
Proof.
  intros out. subst out. unfold link_prompt_version_to_model.
  prefix_outcome name (VStr version).
  - unfold new_prompt_entry. run_cases; intros Hin; past_reads Hreads Hin; event_inv Hin.
    all: split_and!;
      [ eauto
      | rewrite no_link_write_app; split; [by apply registry_reads_no_write | no_write]
      | intros ? Hrel; past_reads Hreads Hrel; event_inv Hrel; done ].
  - intros Hin. by apply (registry_read_event _ _ Hreads) in Hin.
Qed.

Lemma missing_run {W : Type} (h : handler W) (w : W)
    (name version run_id : string) :
  let out := run h (link_prompt_version_to_run name version run_id) w in
  (existT (get_run run_id) (Ok None) : event) ∈ log out →
  (∃ e, res out = Exc e)
  ∧ no_link_write (log out)
  ∧ (∀ released, (existT lock_release (Ok released) : event) ∈ log out →
     res out = Exc (MlflowException (no_run_message run_id name)
                      (Some RESOURCE_DOES_NOT_EXIST))).
Proof.
  intros out. subst out. unfold link_prompt_version_to_run.
  prefix_outcome name (VStr version).
  - unfold new_prompt_entry. run_cases; intros Hin; past_reads Hreads Hin; event_inv Hin.
    all: split_and!;
      [ eauto
      | rewrite no_link_write_app; split; [by apply registry_reads_no_write | no_write]
      | intros ? Hrel; past_reads Hreads Hrel; event_inv Hrel; done ].
  - intros Hin. by apply (registry_read_event _ _ Hreads) in Hin.
Qed.

(** X3.  A link method whose target does not exist.  When the read of the
    trace, the logged model or the run returns [None], the method ends with
    an error and writes no tag; once the lock is released the error is the
    [MlflowException] "Could not find ..." with the code
    RESOURCE_DOES_NOT_EXIST, also when the prompt version did not resolve. *)
Theorem link_to_missing_target {W : Type} (h : handler W) (w : W) :
  (∀ prompt_versions trace_id,
     let out := run h (link_prompts_to_trace prompt_versions trace_id) w in
     (existT (get_trace_info trace_id) (Ok None) : event) ∈ log out →
     (∃ e, res out = Exc e)
     ∧ no_link_write (log out)
     ∧ (∀ released, (existT lock_release (Ok released) : event) ∈ log out →
        res out = Exc (MlflowException (no_trace_message trace_id)
                         (Some RESOURCE_DOES_NOT_EXIST))))
  ∧ (∀ name version model_id,
       let out := run h (link_prompt_version_to_model name version model_id) w in
       (existT (get_logged_model model_id) (Ok None) : event) ∈ log out →
       (∃ e, res out = Exc e)
       ∧ no_link_write (log out)
       ∧ (∀ released, (existT lock_release (Ok released) : event) ∈ log out →
          res out = Exc (MlflowException (no_model_message model_id name)
                           (Some RESOURCE_DOES_NOT_EXIST))))
  ∧ (∀ name version run_id,
       let out := run h (link_prompt_version_to_run name version run_id) w in
       (existT (get_run run_id) (Ok None) : event) ∈ log out →
       (∃ e, res out = Exc e)
       ∧ no_link_write (log out)
       ∧ (∀ released, (existT lock_release (Ok released) : event) ∈ log out →
          res out = Exc (MlflowException (no_run_message run_id name)
                           (Some RESOURCE_DOES_NOT_EXIST)))).
Proof.
  split_and!; intros.
  - by apply missing_trace.
  - by apply missing_model.
  - by apply missing_run.
Qed.

Lemma link_writes_app (l1 l2 : list event) :
  link_writes (l1 ++ l2) = link_writes l1 ++ link_writes l2.
Proof. unfold link_writes, ops. by rewrite fmap_app, List.filter_app. Qed.

Lemma link_writes_reads (l : list event) :
  Forall (λ o, is_registry_read o = true) (ops l) → link_writes l = [].
Proof.
  unfold link_writes. induction 1 as [| o l' Ho _ IH]; [done |].
  cbn. rewrite IH. by destruct o.
Qed.

Lemma first_link_trace {W : Type} (h : handler W) (w : W)
    (prompt_versions : list PromptVersion) (trace_id : string) (ti : TraceInfo) :
  let out := run h (link_prompts_to_trace prompt_versions trace_id) w in
  (existT (get_trace_info trace_id) (Ok (Some ti)) : event) ∈ log out →
  ti_tags ti !! LINKED_PROMPTS_TAG_KEY = None →
  link_writes (log out)
  = [set_trace_tag trace_id LINKED_PROMPTS_TAG_KEY
       (json_dumps (PList (merge_entries [] (entry_of <$> prompt_versions))))].
Proof.
  intros out. subst out. unfold link_prompts_to_trace.
  run_cases; intros Hin Htag; event_inv Hin.
  all: rewrite Htag in *.
  all: try (apply bool_decide_eq_false in Heqb; by destruct Heqb).
  all: try discriminate.
  all: unfold _update_linked_prompts_tag, parse_linked_prompts in *; simplify_eq.
  all: reflexivity.
Qed.

Lemma first_link_model {W : Type} (h : handler W) (w : W)
    (name version model_id : string) (lm : LoggedModel) (pv : PromptVersion) :
  let out := run h (link_prompt_version_to_model name version model_id) w in
  res (run h (get_prompt_version name (VStr version)) w) = Ok (Some pv) →
  (existT (get_logged_model model_id) (Ok (Some lm)) : event) ∈ log out →
  lm_tags lm !! LINKED_PROMPTS_TAG_KEY = None →
  link_writes (log out)
  = [set_logged_model_tags model_id
       [mkTag LINKED_PROMPTS_TAG_KEY
          (json_dumps (PList [entry_value (entry_of pv)]))]].
Proof.
  intros out. subst out. unfold link_prompt_version_to_model.
  prefix_outcome name (VStr version); [| done].
  intros [= ->]. unfold new_prompt_entry.
  run_cases; intros Hin Htag; past_reads Hreads Hin; event_inv Hin.
  all: rewrite Htag in *.
  all: try (apply bool_decide_eq_false in Heqb; by destruct Heqb).
  all: try discriminate.
  all: unfold _update_linked_prompts_tag, parse_linked_prompts in *; simplify_eq.
  all: rewrite link_writes_app, (link_writes_reads _ Hreads); reflexivity.
Qed.

Lemma first_link_run {W : Type} (h : handler W) (w : W)
    (name version run_id : string) (r : Run) (pv : PromptVersion) :
  let out := run h (link_prompt_version_to_run name version run_id) w in
  res (run h (get_prompt_version name (VStr version)) w) = Ok (Some pv) →
  (existT (get_run run_id) (Ok (Some r)) : event) ∈ log out →
  run_linked_prompts r = None →
  link_writes (log out)
  = [set_tag run_id
       (mkTag LINKED_PROMPTS_TAG_KEY
          (json_dumps (PList [entry_value (entry_of pv)])))].
Proof.
  intros out. subst out. unfold link_prompt_version_to_run.
  prefix_outcome name (VStr version); [| done].
  intros [= ->]. unfold new_prompt_entry.
  run_cases; intros Hin Htag; past_reads Hreads Hin; event_inv Hin.
  all: rewrite Htag in *.
  all: try (apply bool_decide_eq_false in Heqb; by destruct Heqb).
  all: try discriminate.
  all: unfold _update_linked_prompts_tag, parse_linked_prompts in *; simplify_eq.
  all: rewrite link_writes_app, (link_writes_reads _ Hreads); reflexivity.
Qed.

(** X4.  The first link.  When the target is found and holds no
    linked-prompts tag, a link method makes exactly one tag write, of the
    serialization of the entries without repetition: for
    [link_prompts_to_trace] also when no prompt version is given, where the
    tag written is the serialization of the empty array. *)
Theorem first_link_writes_once {W : Type} (h : handler W) (w : W) :
  (∀ prompt_versions trace_id ti,
     let out := run h (link_prompts_to_trace prompt_versions trace_id) w in
     (existT (get_trace_info trace_id) (Ok (Some ti)) : event) ∈ log out →
     ti_tags ti !! LINKED_PROMPTS_TAG_KEY = None →
     link_writes (log out)
     = [set_trace_tag trace_id LINKED_PROMPTS_TAG_KEY
          (json_dumps (PList (merge_entries [] (entry_of <$> prompt_versions))))]
     ∧ (prompt_versions = [] →
        link_writes (log out)
        = [set_trace_tag trace_id LINKED_PROMPTS_TAG_KEY (json_dumps (PList []))]))
  ∧ (∀ name version model_id lm pv,
       let out := run h (link_prompt_version_to_model name version model_id) w in
       res (run h (get_prompt_version name (VStr version)) w) = Ok (Some pv) →
       (existT (get_logged_model model_id) (Ok (Some lm)) : event) ∈ log out →
       lm_tags lm !! LINKED_PROMPTS_TAG_KEY = None →
       link_writes (log out)
       = [set_logged_model_tags model_id
            [mkTag LINKED_PROMPTS_TAG_KEY
               (json_dumps (PList [entry_value (entry_of pv)]))]])
  ∧ (∀ name version run_id r pv,
       let out := run h (link_prompt_version_to_run name version run_id) w in
       res (run h (get_prompt_version name (VStr version)) w) = Ok (Some pv) →
       (existT (get_run run_id) (Ok (Some r)) : event) ∈ log out →
       run_linked_prompts r = None →
       link_writes (log out)
       = [set_tag run_id
            (mkTag LINKED_PROMPTS_TAG_KEY
               (json_dumps (PList [entry_value (entry_of pv)])))]).
Proof.
  split_and!.
  - intros pvs tid ti out Hin Htag.
    pose proof (first_link_trace h w pvs tid ti Hin Htag) as Hwrite.
    split; [exact Hwrite |]. intros ->. exact Hwrite.
  - intros. by eapply first_link_model.
  - intros. by eapply first_link_run.
Qed.

(** *** The lock *)

Ltac locked_shape :=
  first
    [ left; eexists; reflexivity
    | right; eexists _, _, _; split;
      [ reflexivity | unfold ops; cbn; repeat constructor ] ].

Lemma locked_trace {W : Type} (h : handler W) (w : W)
    (prompt_versions : list PromptVersion) (trace_id : string) :
  locked_section (log (run h (link_prompts_to_trace prompt_versions trace_id) w)).
Proof.
  unfold link_prompts_to_trace, locked_section. run_cases; locked_shape.
Qed.

Lemma locked_model {W : Type} (h : handler W) (w : W) (name version model_id : string) :
  let prefix := run h (get_prompt_version name (VStr version)) w in
  let l := log (run h (link_prompt_version_to_model name version model_id) w) in
  (∃ e, res prefix = Exc e ∧ l = log prefix)
  ∨ (∃ rest, l = log prefix ++ rest ∧ locked_section rest).
Proof.
  intros prefix l. subst prefix l. unfold link_prompt_version_to_model.
  prefix_outcome name (VStr version); [| left; eauto].
  right. eexists. split; [reflexivity |].
  unfold new_prompt_entry, locked_section. run_cases; locked_shape.
Qed.

Lemma locked_run_method {W : Type} (h : handler W) (w : W)
    (name version run_id : string) :
  let prefix := run h (get_prompt_version name (VStr version)) w in
  let l := log (run h (link_prompt_version_to_run name version run_id) w) in
  (∃ e, res prefix = Exc e ∧ l = log prefix)
  ∨ (∃ rest, l = log prefix ++ rest ∧ locked_section rest).
Proof.
  intros prefix l. subst prefix l. unfold link_prompt_version_to_run.
  prefix_outcome name (VStr version); [| left; eauto].
  right. eexists. split; [reflexivity |].
  unfold new_prompt_entry, locked_section. run_cases; locked_shape.
Qed.

(** X5.  The link lock.  The log of [link_prompts_to_trace] is a locked
    section: the acquisition of the lock, then operations on the tracking
    side only, then the release of the lock as the last operation, on every
    path, also when an operation raised (or the acquisition alone when it
    raised).  The log of [link_prompt_version_to_model] and of
    [link_prompt_version_to_run] is the log of [get_prompt_version], which
    holds reads of the registry only and is all there is when it raised,
    followed by such a locked section. *)
Theorem link_lock_discipline {W : Type} (h : handler W) (w : W) :
  (∀ prompt_versions trace_id,
     locked_section (log (run h (link_prompts_to_trace prompt_versions trace_id) w)))
  ∧ (∀ name version,
       let prefix := run h (get_prompt_version name (VStr version)) w in
       Forall (λ o, is_registry_read o = true) (ops (log prefix))
       ∧ (∀ model_id,
            let l := log (run h (link_prompt_version_to_model name version model_id) w) in
            (∃ e, res prefix = Exc e ∧ l = log prefix)
            ∨ (∃ rest, l = log prefix ++ rest ∧ locked_section rest))
       ∧ (∀ run_id,
            let l := log (run h (link_prompt_version_to_run name version run_id) w) in
            (∃ e, res prefix = Exc e ∧ l = log prefix)
            ∨ (∃ rest, l = log prefix ++ rest ∧ locked_section rest))).
Proof.
  split; [intros; apply locked_trace |].
  intros name version prefix. split_and!.
  - apply get_prompt_version_reads.
  - intros model_id. apply locked_model.
  - intros run_id. apply locked_run_method.
Qed.
(** *** A version number and its decimal text *)

Local Open Scope Z_scope.

Lemma lstrip_no_space (l : list ascii) :
  Forall (λ c, PyInt.is_space c = false) l → PyInt.lstrip l = l.
Proof. intros Hl. destruct Hl as [| c l Hc _]; [done |]. cbn. by rewrite Hc. Qed.

Lemma strip_no_space (l : list ascii) :
  Forall (λ c, PyInt.is_space c = false) l → PyInt.strip l = l.
Proof.
  intros Hl. unfold PyInt.strip. rewrite (lstrip_no_space l Hl).
  rewrite lstrip_no_space; [apply rev_involutive |].
  by apply List.Forall_rev.
Qed.

Lemma uint_chars_no_space (d : Decimal.uint) :
  Forall (λ c, PyInt.is_space c = false)
    (list_ascii_of_string (NilEmpty.string_of_uint d)).
Proof. induction d; cbn [NilEmpty.string_of_uint list_ascii_of_string]; by constructor. Qed.

Lemma digits_of_uint_acc (d : Decimal.uint) (p : positive) :
  PyInt.digits (Z.pos p) true (list_ascii_of_string (NilEmpty.string_of_uint d))
  = Some (Z.pos (Pos.of_uint_acc d p)).
Proof.
  revert p. induction d; intros p; [done | ..];
    cbn [NilEmpty.string_of_uint list_ascii_of_string PyInt.digits Pos.of_uint_acc];
    match goal with
    | |- context [PyInt.digit_of ?c] =>
        let v := eval vm_compute in (PyInt.digit_of c) in
        change (PyInt.digit_of c) with v
    end; cbv iota beta;
    match goal with
    | |- PyInt.digits ?a _ _ = Some (Z.pos (Pos.of_uint_acc _ ?q)) =>
        replace a with (Z.pos q) by lia
    end; apply IHd.
Qed.

Lemma digits_of_uint (d : Decimal.uint) (after_digit : bool) :
  d ≠ Decimal.Nil ∨ after_digit = true →
  PyInt.digits 0 after_digit (list_ascii_of_string (NilEmpty.string_of_uint d))
  = Some (Z.of_N (Pos.of_uint d)).
Proof.
  revert after_digit. induction d; intros b Hb.
  - destruct Hb as [? | ->]; done.
  - cbn [NilEmpty.string_of_uint list_ascii_of_string PyInt.digits Pos.of_uint].
    change (PyInt.digit_of "0") with (Some 0). cbv iota beta.
    change (10 * 0 + 0) with 0. apply IHd. by right.
  - apply (digits_of_uint_acc d 1).
  - apply (digits_of_uint_acc d 2).
  - apply (digits_of_uint_acc d 3).
  - apply (digits_of_uint_acc d 4).
  - apply (digits_of_uint_acc d 5).
  - apply (digits_of_uint_acc d 6).
  - apply (digits_of_uint_acc d 7).
  - apply (digits_of_uint_acc d 8).
  - apply (digits_of_uint_acc d 9).
Qed.

Lemma of_str_unsigned (d : Decimal.uint) :
  d ≠ Decimal.Nil →
  PyInt.of_str (NilEmpty.string_of_uint d) = Some (Z.of_N (Pos.of_uint d)).
Proof.
  intros Hd. unfold PyInt.of_str.
  rewrite (strip_no_space _ (uint_chars_no_space d)).
  rewrite <- (digits_of_uint d false) by by left.
  by destruct d.
Qed.

Lemma of_str_negative (d : Decimal.uint) :
  d ≠ Decimal.Nil →
  PyInt.of_str (String "-" (NilEmpty.string_of_uint d))
  = Some (- Z.of_N (Pos.of_uint d)).
Proof.
  intros Hd. unfold PyInt.of_str.
  cbn [list_ascii_of_string].
  rewrite strip_no_space by (constructor; [done | apply uint_chars_no_space]).
  cbv iota beta. rewrite (digits_of_uint d false) by by left. done.
Qed.

Lemma of_str_str_of_int (n : Z) : PyInt.of_str (str_of_int n) = Some n.
Proof.
  unfold str_of_int. destruct n as [| p | p]; [done | ..];
    cbn [Z.to_int NilZero.string_of_int];
    pose proof (DecimalPos.Unsigned.to_uint_nonnil p) as Hnil;
    pose proof (DecimalPos.Unsigned.of_to p) as Hto.
  - unfold NilZero.string_of_uint.
    destruct (Pos.to_uint p) eqn:Hd; [done | ..]; rewrite <- Hd in *;
    rewrite of_str_unsigned, Hto by done; done.
  - unfold NilZero.string_of_uint.
    destruct (Pos.to_uint p) eqn:Hd; [done | ..]; rewrite <- Hd in *;
    rewrite of_str_negative, Hto by done; done.
Qed.

(** X6.  [int(str(n))] is [n] for every integer [n], so a version given as
    the decimal text of [n] is the version [n]: [delete_prompt_version],
    [set_prompt_version_tag] and [delete_prompt_version_tag] are the same
    calls for the text as for the integer, and [get_prompt_version] with
    the integer [n], when the name is a prompt, reads the version by its
    number [n]. *)
Theorem version_number_and_its_text (n : Z) (name key value : string) :
  py_int (VStr (py_str (VInt n))) = Some n
  ∧ delete_prompt_version name (VStr (str_of_int n))
    = delete_prompt_version name (VInt n)
  ∧ set_prompt_version_tag name (VStr (str_of_int n)) key value
    = set_prompt_version_tag name (VInt n) key value
  ∧ delete_prompt_version_tag name (VStr (str_of_int n)) key
    = delete_prompt_version_tag name (VInt n) key
  ∧ (∀ (W : Type) (h : handler W) (w : W) (rm : RegisteredModel),
       let out := run h (get_prompt_version name (VInt n)) w in
       (existT (get_registered_model name) (Ok rm) : event) ∈ log out →
       is_prompt (tags_as_dict (rm__tags rm)) = true →
       ∃ r, log out !! 1%nat = Some (existT (get_model_version name n) r)).
Proof.
  pose proof (of_str_str_of_int n) as Hn.
  split_and!.
  - exact Hn.
  - unfold delete_prompt_version. cbn [py_int py_str]. by rewrite Hn.
  - unfold set_prompt_version_tag. cbn [py_int py_str]. by rewrite Hn.
  - unfold delete_prompt_version_tag. cbn [py_int py_str]. by rewrite Hn.
  - intros W h w rm out. subst out. unfold get_prompt_version.
    cbn [py_str]. rewrite Hn.
    run_cases; intros Hin Hp; event_inv Hin.
    all: try (rewrite Hp in *; done).
    all: by eexists.
Qed.

(** *** Looking a prompt up *)

(** X7.  [get_prompt_version], when the name is a prompt and the last read
    returned a version that carries the marker: the result is what
    [model_version_to_prompt_version] gives for that version and the
    model's tags without the marker; an [MlflowException] of the conversion
    is raised and another exception of it gives [None]. *)
Theorem get_prompt_version_found {W : Type} (h : handler W) (w : W)
    (name : string) (version : version_arg) (rm : RegisteredModel)
    (mv : ModelVersion) :
  let out := run h (get_prompt_version name version) w in
  (existT (get_registered_model name) (Ok rm) : event) ∈ log out →
  (∃ n, last (log out) = Some (existT (get_model_version name n) (Ok mv)))
  ∨ last (log out)
    = Some (existT (get_model_version_by_alias name (py_str version)) (Ok mv)) →
  has_prompt_tag (mv_tags mv) = true →
  res out
  = match model_version_to_prompt_version mv
            (delete IS_PROMPT_TAG_KEY (tags_as_dict (rm__tags rm))) with
    | Ok pv => Ok (Some pv)
    | Exc e => if is_mlflow_exception e then Exc e else Ok None
    end.
Proof.
  intros out. subst out. rewrite <- user_tags_minus_marker.
  unfold get_prompt_version.
  run_cases; intros Hin Hlast Hm; event_inv Hin.
  all: destruct Hlast as [[n' Hlast] | Hlast]; cbn in Hlast;
    apply (inj Some) in Hlast; event_inv Hlast.
  all: try (rewrite Hm in *; done).
  all: cbn [res] in *; simplify_eq.
  all: repeat match goal with
              | Hc : model_version_to_prompt_version ?m ?t = _,
                Hd : model_version_to_prompt_version ?m ?t = _ |- _ =>
                  rewrite Hc in Hd
              | Hb : is_mlflow_exception ?e = _,
                Hd : is_mlflow_exception ?e = _ |- _ => rewrite Hb in Hd
              end; simplify_eq.
  all: repeat match goal with
              | Hb : is_mlflow_exception _ = _ |- _ => rewrite Hb
              end; done.
Qed.

(** X8.  [get_prompt] and [get_prompt_version] on the same registry.  Each
    reads the registered model first.  When that read raises, [get_prompt]
    returns [None] and makes no other call, whatever the exception, while
    [get_prompt_version] raises it when it is an [MlflowException], and
    returns [None] otherwise.  When the read returns a model that is not a
    prompt, [get_prompt] returns [None] and [get_prompt_version] raises. *)
Theorem prompt_lookups_on_failure {W : Type} (h : handler W) (w : W)
    (name : string) (version : version_arg) :
  let p := run h (get_prompt name) w in
  let pv := run h (get_prompt_version name version) w in
  ∃ r, log p = [existT (get_registered_model name) r]
       ∧ log pv !! 0%nat = Some (existT (get_registered_model name) r)
       ∧ match r with
         | Exc e =>
             res p = Ok None
             ∧ log pv = log p
             ∧ res pv = if is_mlflow_exception e then Exc e else Ok None
         | Ok rm =>
             is_prompt (tags_as_dict (rm__tags rm)) = false →
             res p = Ok None
             ∧ log pv = log p
             ∧ res pv = Exc (MlflowException (not_a_prompt_message name)
                               (Some INVALID_PARAMETER_VALUE))
         end.
Proof.
  intros p pv. subst p pv. unfold get_prompt, get_prompt_version.
  run_steps.
  destruct (h (get_registered_model name) w) as [[rm | e] w'] eqn:Hget.
  - eexists. split; [| split].
    + run_cases; reflexivity.
    + run_cases; reflexivity.
    + cbv beta iota. intros Hp. run_simpl. rewrite Hp. by run_simpl.
  - eexists. split; [| split].
    + by run_simpl.
    + by run_simpl.
    + cbv beta iota. run_simpl. by destruct (is_mlflow_exception e).
Qed.

(** X9.  [create_prompt_version] creates the version first and reads the
    registered model second.  When the creation raises, that exception is
    raised and nothing else is called.  When the read of the model raises
    after the version was created, that exception is raised and no other
    call follows: the version stays.  Otherwise the result is what
    [model_version_to_prompt_version] gives for the new version and the
    model's tags without the marker, whether or not the model is a
    prompt. *)
Theorem create_prompt_version_result {W : Type} (h : handler W) (w : W)
    (name : string) (tpl : template) (description : option string)
    (tags : option (list (string * string))) (rf : option response_format) :
  let out := run h (create_prompt_version name tpl description tags rf) w in
  let create := create_model_version name "prompt-template"
                  (version_tags tpl tags rf) description in
  ∃ created : result ModelVersion,
    log out !! 0%nat = Some (existT create created)
    ∧ match created with
      | Exc e => res out = Exc e ∧ length (log out) = 1%nat
      | Ok mv =>
          ∃ read : result RegisteredModel,
            log out = [existT create created;
                       existT (get_registered_model name) read]
            ∧ res out
              = match read with
                | Exc e => Exc e
                | Ok rm =>
                    model_version_to_prompt_version mv
                      (delete IS_PROMPT_TAG_KEY (tags_as_dict (rm__tags rm)))
                end
      end.
Proof.
  intros out create. subst out create. unfold create_prompt_version.
  run_steps.
  destruct (h _ w) as [[mv | e] w1] eqn:Hcreate; run_simpl.
  - eexists. split; [reflexivity |]. cbv beta iota.
    destruct (h (get_registered_model name) w1) as [[rm | e] w2] eqn:Hread; run_simpl.
    + exists (Ok rm). rewrite <- user_tags_minus_marker.
      by destruct (model_version_to_prompt_version _ _).
    + eexists. by split.
  - eexists. split; [reflexivity |]. by split.
Qed.

(** *** The wait is bounded *)

Section BoundedWait.
Context {W : Type} (h : handler W) (clock : W → Z).
Context (clock_time : ∀ w now w', h time w = (Ok now, w') →
                        now = clock w ∧ clock w ≤ clock w').
Context (clock_read : ∀ w name version r w',
                        h (get_model_version name version) w = (r, w') →
                        clock w ≤ clock w').
Context (clock_sleep : ∀ w seconds w', h (sleep seconds) w = (Ok tt, w') →
                         clock w + seconds ≤ clock w').

(** With less than [3 * rounds] seconds left on the clock, the loop reads
    the version at most [rounds] times, and it ends when it may make one
    round more. *)
Lemma await_loop_bounded (rounds fuel : nat) (max_time await_creation_for : Z)
    (hint : string) (mv : ModelVersion) (w : W) :
  max_time - clock w < 3 * Z.of_nat rounds →
  let lo := run h (await_loop fuel max_time await_creation_for hint mv) w in
  (polls (log lo) ≤ rounds)%nat
  ∧ ((rounds < fuel)%nat → ∃ r, res lo = r ∧ r ≠ Ok None).
Proof.
  revert rounds mv w. induction fuel as [| fuel IH]; intros rounds mv w Hleft; cbn zeta.
  - cbn [await_loop]. destruct (is_pending mv); cbn [run res log polls];
      (split; [unfold polls; cbn; lia | lia]).
  - cbn [await_loop]. destruct (is_pending mv) eqn:Hp;
      [| cbn [run res log]; split; [unfold polls; cbn; lia | by eexists]].
    run_steps.
    destruct (h time w) as [[now | e] w1] eqn:Htime; run_simpl;
      [| split; [unfold polls; cbn; lia | by eexists]].
    destruct (clock_time _ _ _ Htime) as [-> Hw1].
    destruct (Z.ltb max_time (clock w)) eqn:Hlate; run_simpl;
      [split; [unfold polls; cbn; lia | by eexists] |].
    apply Z.ltb_ge in Hlate.
    destruct rounds as [| rounds]; [lia |].
    destruct (h (get_model_version (mv_name mv) (mv_version mv)) w1)
      as [[mv' | e] w2] eqn:Hread; run_simpl;
      [| split; [unfold polls; cbn; lia | by eexists]].
    pose proof (clock_read _ _ _ _ _ Hread) as Hw2.
    destruct (is_pending mv') eqn:Hp'; cbn [negb]; run_simpl;
      [| split; [unfold polls; cbn; lia | by eexists]].
    destruct (h (sleep AWAIT_MODEL_VERSION_CREATE_SLEEP_INTERVAL_SECONDS) w2)
      as [[[] | e] w3] eqn:Hsleep; run_simpl;
      [| split; [unfold polls; cbn; lia | by eexists]].
    pose proof (clock_sleep _ _ _ Hsleep) as Hw3.
    unfold AWAIT_MODEL_VERSION_CREATE_SLEEP_INTERVAL_SECONDS in Hw3.
    destruct (IH rounds mv' w3) as [Hpolls Hends]; [lia |].
    split.
    + unfold polls in *. cbn [app List.filter is_poll projT1 length]. lia.
    + intros Hfuel. apply Hends. lia.
Qed.

(** X10.  [_await_model_version_creation_impl] under a clock that [time()]
    reads, that no read of a version turns back, and that [sleep] advances
    by the time slept at least: the version is read at most
    [await_creation_for / 3 + 1] times, and the wait ends, by an exception
    or by the normal return, in as many rounds; more fuel gives the same
    run. *)
Theorem wait_is_bounded (w : W) (fuel : nat) (mv : ModelVersion)
    (await_creation_for : Z) (hint : string) :
  let bound := (Z.to_nat (await_creation_for / 3) + 1)%nat in
  let out := run h (_await_model_version_creation_impl fuel mv await_creation_for hint) w in
  (polls (log out) ≤ bound)%nat
  ∧ ((bound < fuel)%nat →
     ((∃ e, res out = Exc e) ∨ res out = Ok (Some tt))
     ∧ ∀ k, run h (_await_model_version_creation_impl (fuel + k) mv
                     await_creation_for hint) w = out).
Proof.
  intros bound out.
  destruct (h time w) as [[start | e] w0] eqn:Htime.
  - destruct (clock_time _ _ _ Htime) as [-> Hw0].
    destruct (run_await_impl h w w0 fuel mv await_creation_for hint _ Htime)
      as [Hlog Hres].
    fold out in Hlog, Hres.
    assert (clock w + await_creation_for - clock w0 < 3 * Z.of_nat bound) as Hleft.
    { subst bound. pose proof (Z.mod_pos_bound await_creation_for 3 ltac:(lia)).
      pose proof (Z.div_mod await_creation_for 3 ltac:(lia)). lia. }
    destruct (await_loop_bounded bound fuel _ await_creation_for hint mv w0 Hleft)
      as [Hpolls Hends].
    split.
    + rewrite Hlog. unfold polls in *. cbn [List.filter is_poll projT1]. exact Hpolls.
    + intros Hfuel. destruct (Hends Hfuel) as (r & Hr & Hnone).
      assert (res out ≠ Ok None) as Hout.
      { rewrite Hres, Hr. destruct r as [[mv' |] | e]; [| done | done].
        by destruct (bool_decide _). }
      split.
      * destruct (res out) as [[[] |] | e]; [by right | done | left; by eexists].
      * intros k.
        exact (await_impl_fuel h w w0 fuel k mv await_creation_for hint _ Htime Hout).
  - assert (∀ n, run h (_await_model_version_creation_impl n mv await_creation_for hint) w
                 = {| res := Exc e; final := w0; log := [existT time (Exc e)] |}) as Hrun.
    { intros n. unfold _await_model_version_creation_impl. run_steps. rewrite Htime.
      by run_simpl. }
    subst out. rewrite !Hrun. split; [unfold polls; cbn; lia |].
    intros _. split; [left; by eexists |]. intros k. by rewrite Hrun.
Qed.

End BoundedWait.

(** *** A version created and looked up *)

(** [{tag.key: tag.value for tag in l}] lets a later tag win. *)
Lemma dict_of_tags_from (d : gmap string string) (l : list Tag) :
  foldl (λ d tag, <[key tag := value tag]> d) d l = dict_of_tags l ∪ d.
Proof.
  unfold dict_of_tags. revert d. induction l as [| t l IH]; intros d; cbn [foldl].
  - by rewrite (left_id ∅ (∪)).
  - rewrite (IH (<[key t := value t]> d)), (IH (<[key t := value t]> ∅)).
    rewrite insert_empty, <- (assoc_L (∪)). f_equal.
    by rewrite <- insert_union_singleton_l.
Qed.

Lemma dict_of_tags_cons (t : Tag) (l : list Tag) :
  dict_of_tags (t :: l) = dict_of_tags l ∪ {[key t := value t]}.
Proof.
  unfold dict_of_tags at 1. cbn [foldl]. rewrite dict_of_tags_from.
  by rewrite insert_empty.
Qed.

Lemma version_tags_marked (tpl : template) (tags : option (list (string * string)))
    (rf : option response_format) :
  has_prompt_tag (dict_of_tags (version_tags tpl tags rf)) = true.
Proof.
  unfold version_tags, has_prompt_tag. cbn [app]. rewrite dict_of_tags_cons.
  cbn [key value]. apply bool_decide_eq_true_2.
  rewrite lookup_union, lookup_singleton_eq.
  by destruct (dict_of_tags _ !! IS_PROMPT_TAG_KEY).
Qed.

(** X11.  [create_prompt_version] and then [get_prompt_version] with the
    number of the new version, on a registry that keeps the tags of the
    version and returns the version and the registered model it returned at
    the creation, when the name is a prompt: [get_prompt_version] reads the
    version by its number and returns what [create_prompt_version] returned;
    where the conversion raised there, [get_prompt_version] raises the same
    [MlflowException] and turns another exception into [None].  The
    caller's tags never hide the marker of the version. *)
Theorem create_then_get_prompt_version {W : Type} (h : handler W)
    (w w1 w2 v v1 v2 : W) (name : string) (tpl : template)
    (description : option string) (tags : option (list (string * string)))
    (rf : option response_format) (mv : ModelVersion) (rm : RegisteredModel) :
  h (create_model_version name "prompt-template" (version_tags tpl tags rf)
       description) w = (Ok mv, w1) →
  h (get_registered_model name) w1 = (Ok rm, w2) →
  mv_tags mv = dict_of_tags (version_tags tpl tags rf) →
  is_prompt (tags_as_dict (rm__tags rm)) = true →
  h (get_registered_model name) v = (Ok rm, v1) →
  h (get_model_version name (mv_version mv)) v1 = (Ok mv, v2) →
  let created := run h (create_prompt_version name tpl description tags rf) w in
  let found := run h (get_prompt_version name (VInt (mv_version mv))) v in
  ops (log found) = [get_registered_model name;
                     get_model_version name (mv_version mv)]
  ∧ res found = match res created with
                | Ok pv => Ok (Some pv)
                | Exc e => if is_mlflow_exception e then Exc e else Ok None
                end.
Proof.
  intros Hcreate Hread Htags Hprompt Hget Hversion created found.
  subst created found.
  pose proof (version_tags_marked tpl tags rf) as Hmarked. rewrite <- Htags in Hmarked.
  unfold create_prompt_version, get_prompt_version.
  cbn [py_str]. rewrite of_str_str_of_int.
  run_steps. rewrite Hcreate, Hget. run_simpl.
  rewrite Hread, Hprompt. cbn [negb]. run_simpl.
  rewrite Hversion. run_simpl. rewrite Hmarked. cbn [negb]. run_simpl.
  destruct (model_version_to_prompt_version mv _) as [pv | e]; run_simpl.
  - split; reflexivity.
  - destruct (is_mlflow_exception e); split; reflexivity.
Qed.

(** *** Creating, searching and copying *)

Section RegistryExtras.
Import Registry.
Context {W : Type} (h : rhandler W).

(** X12.  [create_prompt] and then [get_prompt], on a registry that returns
    the model it created with the tags it was given.  [create_prompt]
    returns the caller's tags.  When these do not use the key of the marker,
    [get_prompt] returns the prompt [create_prompt] returned.  When they
    give the marker another value than "true", what was created is not a
    prompt for [get_prompt]; when they give it the value "true",
    [get_prompt] returns the tags without it. *)
Theorem create_prompt_then_get_prompt {V : Type} (g : handler V) (w w' : W) (v v' : V)
    (name : string) (description : option string)
    (tags : option (list (string * string))) (rm : RegisteredModel) :
  let created := rrun h (create_prompt name description tags) w in
  let found := run g (get_prompt name) v in
  let user := dict_of_tags (tag_of_item <$> items_or_empty tags) in
  h (create_registered_model name (Some (prompt_tags tags)) description) w
  = (Ok rm, w') →
  g (get_registered_model name) v = (Ok rm, v') →
  tags_as_dict (rm__tags rm) = dict_of_tags (prompt_tags tags) →
  ∃ p, rres created = Ok p
       ∧ p_tags p = user
       ∧ res found
         = match user !! IS_PROMPT_TAG_KEY with
           | None => Ok (Some p)
           | Some marker =>
               if bool_decide (marker = "true"%string)
               then Ok (Some (mkPrompt (p_name p) (p_description p)
                                (p_creation_timestamp p)
                                (delete IS_PROMPT_TAG_KEY user)))
               else Ok None
           end.
Proof.
  intros created found user. subst created found. unfold create_prompt.
  cbn [mbind rprog_bind rbind rcall rrun].
  intros Hcreate Hget Htags. rewrite Hcreate. cbn [rrun rres rlog].
  eexists. split; [reflexivity |]. split; [reflexivity |].
  cbn [p_name p_description p_creation_timestamp].
  assert (tags_as_dict (rm__tags rm) !! IS_PROMPT_TAG_KEY
          = Some (default "true"%string (user !! IS_PROMPT_TAG_KEY))) as Hlook.
  { rewrite Htags. unfold prompt_tags. cbn [app]. rewrite dict_of_tags_cons.
    cbn [key value]. fold user. rewrite lookup_union, lookup_singleton_eq.
    by destruct (user !! IS_PROMPT_TAG_KEY). }
  assert (tags_as_dict (rm_tags rm) = delete IS_PROMPT_TAG_KEY user) as Hdel.
  { rewrite user_tags_minus_marker, Htags. unfold prompt_tags. cbn [app].
    rewrite dict_of_tags_cons. cbn [key value]. fold user.
    by rewrite delete_union, delete_singleton_eq, (right_id_L ∅ (∪)). }
  unfold get_prompt, is_prompt. run_steps. rewrite Hget. run_simpl.
  rewrite Hlook, Hdel.
  destruct (user !! IS_PROMPT_TAG_KEY) as [marker |] eqn:Hm; cbn [default].
  - destruct (decide (marker = "true"%string)) as [-> | Hne].
    + rewrite !bool_decide_eq_true_2 by done. by run_simpl.
    + rewrite !bool_decide_eq_false_2 by naive_solver. by run_simpl.
  - rewrite bool_decide_eq_true_2 by done. run_simpl.
    by rewrite delete_id.
Qed.

(** X13.  [search_prompts] makes one search of the registered models, with
    the filter on the marker, followed by "AND" and the caller's filter
    when that is not empty, with 100 results at most when the caller gives
    no number, and with the caller's order and page token.  What the search
    raises is raised.  Otherwise the page has the token of the store and one
    prompt for each model returned, in the same order: its tags are the
    model's without the marker, and it is the prompt [get_prompt] returns
    for that model when the model carries the marker.  [search_prompts] does
    not look for the marker itself. *)
Theorem search_prompts_page (w : W) (filter_string : option string)
    (max_results : option Z) (order_by : option (list string))
    (page_token : option string) :
  let out := rrun h (search_prompts filter_string max_results order_by page_token) w in
  let marked := ("tags.`" +:+ IS_PROMPT_TAG_KEY +:+ "` = 'true'")%string in
  let query := search_registered_models
                 (match filter_string with
                  | Some (String c s) => marked +:+ " AND " +:+ String c s
                  | _ => marked
                  end)
                 (default 100 max_results) order_by page_token in
  ∃ r, rlog out = [called query r]
       ∧ match r with
         | Exc e => rres out = Exc e
         | Ok page =>
             ∃ found,
               rres out = Ok found
               ∧ token found = token page
               ∧ length (items found) = length (items page)
               ∧ ∀ (i : nat) (rm : RegisteredModel),
                   items page !! i = Some rm →
                   ∃ p, items found !! i = Some p
                        ∧ p_name p = rm_name rm
                        ∧ p_tags p
                          = delete IS_PROMPT_TAG_KEY (tags_as_dict (rm__tags rm))
                        ∧ ∀ (V : Type) (g : handler V) (v v' : V) (name : string),
                            g (get_registered_model name) v = (Ok rm, v') →
                            is_prompt (tags_as_dict (rm__tags rm)) = true →
                            res (run g (get_prompt name) v) = Ok (Some p)
         end.
Proof.
  intros out marked query. subst out marked query. unfold search_prompts.
  cbn [mbind rprog_bind rbind rcall rrun].
  change (prompt_filter filter_string)
    with (match filter_string with
          | Some (String c s) =>
              ("tags.`" +:+ IS_PROMPT_TAG_KEY +:+ "` = 'true'") +:+ " AND " +:+ String c s
          | _ => "tags.`" +:+ IS_PROMPT_TAG_KEY +:+ "` = 'true'"
          end)%string.
  replace (match max_results with None => 100 | Some n => n end)
    with (default 100 max_results) by by destruct max_results.
  destruct (h _ w) as [[page | e] w1]; cbn [rrun rres rlog].
  2: { eexists. by split. }
  eexists. split; [reflexivity |]. cbv beta iota.
  eexists. split; [reflexivity |]. cbn [token items].
  split; [reflexivity |]. split; [by rewrite length_fmap |].
  intros i rm Hi. exists (prompt_info rm).
  split; [by rewrite list_lookup_fmap, Hi |].
  split; [reflexivity |].
  assert (p_tags (prompt_info rm)
          = delete IS_PROMPT_TAG_KEY (tags_as_dict (rm__tags rm))) as Htags.
  { unfold prompt_info. cbn [p_tags]. rewrite user_tags_minus_marker.
    apply delete_id, lookup_delete_eq. }
  split; [exact Htags |].
  intros V g v v' name Hget Hp.
  unfold get_prompt. run_steps. rewrite Hget. run_simpl. rewrite Hp.
  cbn [negb]. run_simpl. unfold prompt_info. do 3 f_equal.
  rewrite user_tags_minus_marker. symmetry. apply delete_id, lookup_delete_eq.
Qed.

(** X14.  [copy_model_version] registers the destination name first, without
    tags or description.  When that raises anything but an
    [MlflowException] with the code [RESOURCE_ALREADY_EXISTS], the
    exception is raised as it is, no version is created and nothing is
    printed.  Otherwise one version is created, under the destination name,
    with the source "models:/<name>/<version>" of the version copied and
    with its run id, tags, run link and description.  The version the store
    returns is the result; an [MlflowException] of the creation is replaced
    by the "Failed to create model version copy" exception, which has no
    error code of its own, and another exception is raised as it is.  One
    line is printed for the registration, or for the name that exists
    already, and one for the copy when it was made. *)
Theorem copy_model_version_contract (exception_str : exn → string) (w : W)
    (src : SourceVersion) (dst_name : string) :
  let out := rrun h (copy_model_version exception_str src dst_name) w in
  let mv := src_mv src in
  let register := create_registered_model dst_name None None in
  let create := create_model_version dst_name
                  ("models:/" +:+ mv_name mv +:+ "/" +:+ str_of_int (mv_version mv))
                  (src_run_id src) (tag_of_item <$> map_to_list (mv_tags mv))
                  (src_run_link src) (mv_description mv) in
  ∃ registered : result RegisteredModel,
    head (rlog out) = Some (called register registered)
    ∧ if match registered with Ok _ => true | Exc e => already_exists e end
      then
        ∃ created : result ModelVersion,
          calls (rlog out) = [register; create]
          ∧ called create created ∈ rlog out
          ∧ rres out
            = match created with
              | Ok mv_copy => Ok mv_copy
              | Exc e =>
                  if is_mlflow_exception e
                  then Exc (MlflowException
                              ("Failed to create model version copy. "
                               +:+ "The current model registry backend "
                               +:+ "may not yet support model version URI sources."
                               +:+ String "010"%char "Error: " +:+ exception_str e)
                              None)
                  else Exc e
              end
          ∧ lines (rlog out)
            = match registered with
              | Ok rm => registered_message (rm_name rm)
              | Exc _ => already_exists_message dst_name
              end
              :: match created with
                 | Ok mv_copy => [copied_message mv mv_copy]
                 | Exc _ => []
                 end
      else
        calls (rlog out) = [register]
        ∧ lines (rlog out) = []
        ∧ ∃ e, registered = Exc e ∧ rres out = Exc e.
Proof.
  intros out mv register create. subst out mv register create.
  unfold copy_model_version, source_uri, copy_failed_message.
  cbn [mbind rprog_bind rbind rcall rtry_except eprint rrun].
  destruct (h _ w) as [[rm | e] w1]; cbn [rbind rtry_except eprint rrun rres rlog].
  - eexists. split; [reflexivity |]. cbv beta iota.
    destruct (h _ w1) as [[mv_copy | e] w2]; cbn [rbind rtry_except eprint rrun rres rlog].
    + exists (Ok mv_copy). split_and!; try reflexivity. set_solver.
    + exists (Exc e).
      destruct (is_mlflow_exception e); cbn [rrun rres rlog];
        (split_and!; try reflexivity; set_solver).
  - exists (Exc e). split; [reflexivity |].
    destruct e as [msg [[] |] | cls]; cbn [is_mlflow_exception already_exists negb];
      cbn [rbind rtry_except eprint rrun rres rlog].
    all: try (split_and!; [reflexivity | reflexivity | by eexists]).
    destruct (h _ w1) as [[mv_copy | e] w2]; cbn [rbind rtry_except eprint rrun rres rlog].
    + exists (Ok mv_copy). split_and!; try reflexivity. set_solver.
    + exists (Exc e).
      destruct (is_mlflow_exception e); cbn [rrun rres rlog];
        (split_and!; try reflexivity; set_solver).
Qed.

End RegistryExtras.

(** *** Pickling *)

(** X15.  A store that was constructed can be pickled: [__getstate__] returns
    its attributes without the link lock.  [__setstate__] on a new object
    gives a store with the same attributes and with a lock of its own, the
    new one, and pickling that store gives the same state again. *)
Theorem pickle_round_trip (self : gmap string Pickle.attribute) (lock new_lock : nat) :
  let store := Pickle.__init__ self lock in
  ∃ state,
    Pickle.__getstate__ store = Some state
    ∧ state = delete "_prompt_link_lock"%string self
    ∧ let restored := Pickle.__setstate__ ∅ state new_lock in
      restored !! "_prompt_link_lock"%string = Some (Pickle.RLock new_lock)
      ∧ (∀ k, k ≠ "_prompt_link_lock"%string → restored !! k = store !! k)
      ∧ Pickle.__getstate__ restored = Some state.
Proof.
  intros store. subst store.
  unfold Pickle.__init__, Pickle.__getstate__, Pickle.__setstate__. cbv zeta.
  rewrite lookup_insert_eq, delete_insert_eq.
  eexists. split; [reflexivity |]. split; [reflexivity |].
  rewrite (right_id_L ∅ (∪)), lookup_insert_eq, delete_insert_eq, delete_delete_eq.
  split; [reflexivity |]. split; [| reflexivity].
  intros k Hk. by rewrite !lookup_insert_ne, lookup_delete_ne.
Qed.

End Extras.

(** * The further properties on the scenario *)

(** The tag that links version 1, when version 3 is linked: the new value
    holds both, and linking version 3 to it again gives the same value. *)
Lemma update_twice_witness :
  let merged := merge_entries linked_v1 [mkEntry "greeting" "3"] in
  _update_linked_prompts_tag (Some linked_once) [mkEntry "greeting" "3"]
  = Ok (json_dumps (PList merged))
  ∧ _update_linked_prompts_tag (Some (json_dumps (PList merged)))
      [mkEntry "greeting" "3"]
    = Ok (json_dumps (PList merged)).
Proof.
  apply (@update_twice_same_value runtime (Some linked_once) linked_v1
           [mkEntry "greeting" "3"]).
  - vm_compute. reflexivity.
  - vm_compute. reflexivity.
Defined.

(** A trace that does not exist: the error names it, and nothing is
    written. *)
Lemma link_to_missing_target_witness :
  let out := run handle (link_prompts_to_trace [pv1] "trace-0") base in
  res out = Exc (MlflowException (no_trace_message "trace-0")
                   (Some RESOURCE_DOES_NOT_EXIST))
  ∧ no_link_write (log out).
Proof.
  destruct (proj1 (@link_to_missing_target runtime _ handle base) [pv1] "trace-0")
    as (_ & Hwrite & Herror).
  - vm_compute. repeat constructor.
  - split; [| exact Hwrite].
    apply (Herror tt). vm_compute. repeat constructor.
Defined.

(** The first link to the trace "trace-42", which has no tag yet. *)
Lemma first_link_witness :
  link_writes (log (run handle (link_prompts_to_trace [pv1] "trace-42") base))
  = [set_trace_tag "trace-42" LINKED_PROMPTS_TAG_KEY
       (json_dumps (PList (merge_entries [] (entry_of <$> [pv1]))))].
Proof.
  apply (proj1 (@first_link_writes_once runtime _ handle base) [pv1] "trace-42"
           (mkTraceInfo ∅)).
  - vm_compute. repeat constructor.
  - reflexivity.
Defined.

(** Version 1 of "greeting", read by its number. *)
Lemma get_prompt_version_found_witness :
  res (run handle (get_prompt_version "greeting" (VInt 1)) base) = Ok (Some pv1).
Proof.
  rewrite (@get_prompt_version_found runtime _ handle base "greeting" (VInt 1)
             greeting v1).
  - vm_compute. reflexivity.
  - vm_compute. repeat constructor.
  - left. exists 1. vm_compute. reflexivity.
  - vm_compute. reflexivity.
Defined.

Lemma handle_time_is_clock (w : world) (now : Z) (w' : world) :
  handle time w = (Ok now, w') → now = w_now w ∧ w_now w ≤ w_now w'.
Proof. cbn. intros [= <- <-]. lia. Qed.

Lemma handle_read_keeps_clock (w : world) (name : string) (version : Z)
    (r : result ModelVersion) (w' : world) :
  handle (get_model_version name version) w = (r, w') → w_now w ≤ w_now w'.
Proof.
  cbn. unfold read_version.
  destruct (w_fault w); [intros [= <- <-]; lia |].
  destruct (find_version w name version); [| intros [= <- <-]; lia].
  destruct (bool_decide _); [| intros [= <- <-]; lia].
  destruct (w_pending_polls w); intros [= <- <-]; cbn; lia.
Qed.

Lemma handle_sleep_advances (w : world) (seconds : Z) (w' : world) :
  handle (sleep seconds) w = (Ok tt, w') → w_now w + seconds ≤ w_now w'.
Proof. cbn. intros [= <-]. cbn. lia. Qed.

(** Version 4 of "greeting", which stays pending, awaited for 6 seconds:
    three reads at most, and the wait ends. *)
Lemma wait_is_bounded_witness :
  let out := run handle (_await_model_version_creation_impl 10 v4 6 EmptyString) stuck in
  (polls (log out) ≤ 3)%nat
  ∧ ((∃ e, res out = Exc e) ∨ res out = Ok (Some tt)).
Proof.
  destruct (@wait_is_bounded runtime _ handle w_now handle_time_is_clock
              handle_read_keeps_clock handle_sleep_advances stuck 10%nat v4 6
              EmptyString) as [Hpolls Hends].
  split; [exact Hpolls |].
  apply Hends. vm_compute. lia.
Defined.

(** The prompt "farewell", created with one tag and then looked up. *)
Lemma create_prompt_then_get_prompt_witness :
  let tags := Some [("team"%string, "docs"%string)] in
  let created := Registry.rrun RegistryBackend.rhandle
                   (Registry.create_prompt "farewell" None tags) base in
  ∃ p, Registry.rres created = Ok p
       ∧ res (run handle (get_prompt "farewell") (Registry.rfinal created))
         = Ok (Some p).
Proof.
  intros tags created.
  destruct (@create_prompt_then_get_prompt runtime _ RegistryBackend.rhandle _ handle
              base (Registry.rfinal created) (Registry.rfinal created)
              (Registry.rfinal created) "farewell" None tags
              (mkRegisteredModel "farewell" None (Some 0)
                 (TagList (Registry.prompt_tags tags))))
    as (p & Hcreated & _ & Hfound).
  - vm_compute. reflexivity.
  - vm_compute. reflexivity.
  - reflexivity.
  - exists p. split; [exact Hcreated | exact Hfound].
Defined.

(** A new version of "greeting", created and then looked up by its
    number, 5. *)
Lemma create_then_get_prompt_version_witness :
  let created := run handle
                   (create_prompt_version "greeting" (TText "Howdy {{name}}") None
                      None None) base in
  (∃ pv, res created = Ok pv)
  ∧ res (run handle (get_prompt_version "greeting" (VInt 5)) (final created))
    = match res created with
      | Ok pv => Ok (Some pv)
      | Exc e => if is_mlflow_exception e then Exc e else Ok None
      end.
Proof.
  intros created. split; [eexists; vm_compute; reflexivity |].
  refine (proj2 (@create_then_get_prompt_version runtime _ handle base
                   (final created) (final created) (final created) (final created)
                   (final created) "greeting" (TText "Howdy {{name}}") None None None
                   (mkModelVersion "greeting" 5 READY None None
                      (dict_of_tags (version_tags (TText "Howdy {{name}}") None None)))
                   greeting _ _ _ _ _ _)).
  all: vm_compute; reflexivity.
Defined.
